(** * gallery-back: the Express request handlers over Mongoose and Cloudinary

    A shallow embedding of the server file of the repository (the version
    with groups and the [special] tag, and the older [server.js] without
    them), and the properties of its request-handling layer.

    The handlers are [async] functions wrapped in one [try]/[catch]; they
    are embedded in a state-and-exception monad over a [world] that holds
    the two Mongoose collections, the ids issued to their documents, the
    blobs alive at the media host and the log of calls made to the media
    host.  What the world outside the
    process decides (the clock, whether the media host answers, which url
    and public id it hands out) is an [env] passed with each request. *)

From stdpp Require Import base option gmap sets list strings sorting.
From Stdlib Require Import ZArith Ascii String.

Local Open Scope string_scope.
Local Open Scope list_scope.

(** ** Strings as JavaScript sees them *)

(** A string is the UTF-8 bytes of its text.  The code point that one,
    two or three bytes encode, when they are a well-formed sequence; no
    white space lies beyond three bytes. *)
Definition byte (c : ascii) : N := N_of_ascii c.

Definition continuation (c : ascii) : bool :=
  (128 <=? byte c)%N && (byte c <? 192)%N.

Definition code1 (c1 : ascii) : option N :=
  if (byte c1 <? 128)%N then Some (byte c1) else None.

Definition code2 (c1 c2 : ascii) : option N :=
  if (194 <=? byte c1)%N && (byte c1 <? 224)%N && continuation c2
  then Some ((byte c1 - 192) * 64 + (byte c2 - 128))%N
  else None.

Definition code3 (c1 c2 c3 : ascii) : option N :=
  if (224 <=? byte c1)%N && (byte c1 <? 240)%N
     && continuation c2 && continuation c3
  then
    let cp := ((byte c1 - 224) * 4096 + (byte c2 - 128) * 64 + (byte c3 - 128))%N in
    if (2048 <=? cp)%N then Some cp else None
  else None.

(** The code points [String.prototype.trim] removes, the white space and
    the line terminators of ECMAScript: U+0009 to U+000D, U+0020, U+00A0,
    U+1680, U+2000 to U+200A, U+2028, U+2029, U+202F, U+205F, U+3000 and
    U+FEFF. *)
Definition is_space (cp : N) : bool :=
  ((9 <=? cp) && (cp <=? 13) || (cp =? 32) || (cp =? 160) || (cp =? 5760)
   || (8192 <=? cp) && (cp <=? 8202) || (cp =? 8232) || (cp =? 8233)
   || (cp =? 8239) || (cp =? 8287) || (cp =? 12288) || (cp =? 65279))%N.

Definition space_at (cp : option N) : bool :=
  match cp with Some cp => is_space cp | None => false end.

(** The string after the white space character it starts with, if it
    starts with one. *)
Definition space_rest (s : string) : option string :=
  match s with
  | String c1 s1 =>
      if space_at (code1 c1) then Some s1 else
      match s1 with
      | String c2 s2 =>
          if space_at (code2 c1 c2) then Some s2 else
          match s2 with
          | String c3 s3 => if space_at (code3 c1 c2 c3) then Some s3 else None
          | EmptyString => None
          end
      | EmptyString => None
      end
  | EmptyString => None
  end.

Fixpoint trim_start (s : string) : string :=
  match s with
  | String c1 s1 =>
      if space_at (code1 c1) then trim_start s1 else
      match s1 with
      | String c2 s2 =>
          if space_at (code2 c1 c2) then trim_start s2 else
          match s2 with
          | String c3 s3 => if space_at (code3 c1 c2 c3) then trim_start s3 else s
          | EmptyString => s
          end
      | EmptyString => s
      end
  | EmptyString => EmptyString
  end.

(** Is the string white space from end to end. *)
Definition all_space (s : string) : bool :=
  match trim_start s with EmptyString => true | String _ _ => false end.

Fixpoint trim_end (s : string) : string :=
  match s with
  | EmptyString => EmptyString
  | String c s' => if all_space s then EmptyString else String c (trim_end s')
  end.

Definition trim (s : string) : string := trim_end (trim_start s).

(** Truthiness of a string: every string but the empty one. *)
Definition truthy (s : string) : bool :=
  match s with EmptyString => false | String _ _ => true end.

(** [a || b] where [a] is a text field of the request body ([None] is
    [undefined]) and [b] is the value already on the document. *)
Definition js_or {A} (inj : string → A) (a : option string) (b : A) : A :=
  match a with
  | Some s => if truthy s then inj s else b
  | None => b
  end.

(** ** Documents *)

(** An [ObjectId] is the number its twelve bytes encode. *)
Definition ObjectId := N.

(** The [:id] segment of a route once Mongoose casts it: an ObjectId, or a
    string that is no ObjectId (the query then rejects with a CastError). *)
Inductive id_param :=
  | IdOk (o : ObjectId)
  | IdMalformed (raw : string).

(** A [Date] path of a document: unset, a value that failed the cast to
    Date, or a point in time in milliseconds. *)
Inductive date_value :=
  | DateUndefined
  | DateInvalid
  | DateOk (t : Z).

(** A document of the Memory model.  [None] is [undefined]. *)
Record memory_doc := MemoryDoc {
  title : option string;
  date : date_value;
  description : option string;
  imageUrl : option string;
  imagePublicId : option string;
  createdAt : Z;
  special : option string
}.

(** A document of the Group model.  [None] is [undefined] or [null]. *)
Record group_doc := GroupDoc {
  name : option string;
  g_description : option string;
  memoryIds : option (list ObjectId);
  g_createdAt : Z
}.

Global Instance date_value_eq_dec : EqDecision date_value.
Proof. solve_decision. Defined.
Global Instance memory_doc_eq_dec : EqDecision memory_doc.
Proof. solve_decision. Defined.
Global Instance group_doc_eq_dec : EqDecision group_doc.
Proof. solve_decision. Defined.

(** ** The world: both collections and the media host *)

(** A call made to the media host: an upload of an image of some format,
    or [uploader.destroy] of a public id. *)
Inductive media_call :=
  | Upload (format : string)
  | Destroy (public_id : option string).

Global Instance media_call_eq_dec : EqDecision media_call.
Proof. solve_decision. Defined.

(** [issued] holds the ids of the documents that have been inserted so
    far, those deleted since included: the driver hands out no ObjectId a
    second time. *)
Record world := World {
  memories : gmap ObjectId memory_doc;
  groups : gmap ObjectId group_doc;
  blobs : gset string;
  media_log : list media_call;
  issued : gset ObjectId
}.

Definition set_memories (f : gmap ObjectId memory_doc → gmap ObjectId memory_doc)
    (w : world) : world :=
  World (f (memories w)) (groups w) (blobs w) (media_log w) (issued w).
Definition set_groups (f : gmap ObjectId group_doc → gmap ObjectId group_doc)
    (w : world) : world :=
  World (memories w) (f (groups w)) (blobs w) (media_log w) (issued w).
Definition set_blobs (f : gset string → gset string) (w : world) : world :=
  World (memories w) (groups w) (f (blobs w)) (media_log w) (issued w).
Definition log_call (c : media_call) (w : world) : world :=
  World (memories w) (groups w) (blobs w) (media_log w ++ [c]) (issued w).
Definition set_issued (f : gset ObjectId → gset ObjectId) (w : world) : world :=
  World (memories w) (groups w) (blobs w) (media_log w) (f (issued w)).

Definition empty_world : world := World ∅ ∅ ∅ [] ∅.

(** The ids a new document cannot get: those in either collection and
    those issued before. *)
Definition used_ids (w : world) : gset ObjectId :=
  dom (memories w) ∪ dom (groups w) ∪ issued w.

(** The [_id] the driver generates for a new document. *)
Definition new_id (w : world) : ObjectId := fresh (used_ids w).

(** What the surroundings decide for one request. *)
Record env := Env {
  now : Z;                                (* Date.now() *)
  upload_reply : option (string * string);(* secure_url and public_id handed
                                             out by the host; None: the
                                             upload is rejected *)
  destroy_reachable : bool                (* does uploader.destroy get an
                                             answer from the host *)
}.

(** What Mongoose does on its own account, fixed for a deployment: its
    cast of a non-empty string to a Date, and whether an update drops the
    keys whose value is [undefined] (otherwise they are written as null). *)
Record mongoose := Mongoose {
  Date_cast : string → option Z;
  omitUndefined : bool
}.

(** ** The monad of an async function body *)

Inductive error :=
  | CastError
  | ValidationError
  | MediaError.

Inductive outcome (A : Type) :=
  | Returned (a : A)
  | Thrown (e : error).
Arguments Returned {A} a.
Arguments Thrown {A} e.

Definition M (A : Type) : Type := world → outcome A * world.

Global Instance M_ret : MRet M := λ A a w, (Returned a, w).
Global Instance M_bind : MBind M := λ A B f m w,
  match m w with
  | (Returned a, w') => f a w'
  | (Thrown e, w') => (Thrown e, w')
  end.

Definition throw {A} (e : error) : M A := λ w, (Thrown e, w).
Definition get_world : M world := λ w, (Returned w, w).
Definition modify_world (f : world → world) : M unit := λ w, (Returned (), f w).

(** [try { body } catch (err) { handler }]: what [body] did to the world
    before it threw stays done. *)
Definition try_catch {A} (body : M A) (handler : error → M A) : M A := λ w,
  match body w with
  | (Returned a, w') => (Returned a, w')
  | (Thrown e, w') => handler e w'
  end.

(** ** The media host: Cloudinary behind multer *)

(** The storage parameters of [CloudinaryStorage]. *)
Definition folder : string := "memories".
Definition allowed_formats : list string := ["jpg"; "jpeg"; "png"; "gif"].

(** [req.file] as the storage engine fills it: [path] is the url of the
    stored image and [filename] its public id. *)
Record file := File {
  path : string;
  filename : string
}.

Module cloudinary.

(** The upload made by the storage engine for the image part of a
    multipart request.  The host refuses a format that is not allowed. *)
Definition upload (e : env) (format : string) : M file :=
  _ ← modify_world (log_call (Upload format));
  if bool_decide (format ∈ allowed_formats) then
    match upload_reply e with
    | Some (url, public_id) =>
        _ ← modify_world (set_blobs (λ b, {[public_id]} ∪ b));
        mret (File url public_id)
    | None => throw MediaError
    end
  else throw MediaError.

(** [cloudinary.uploader.destroy(public_id)]: the promise resolves with
    the host's result, also when there was nothing to delete, and rejects
    when the host gives no answer or no public id is passed. *)
Definition destroy (e : env) (public_id : option string) : M string :=
  _ ← modify_world (log_call (Destroy public_id));
  match public_id with
  | None => throw MediaError
  | Some p =>
      if destroy_reachable e then
        w ← get_world;
        if bool_decide (p ∈ blobs w) then
          _ ← modify_world (set_blobs (λ b, b ∖ {[p]}));
          mret "ok"
        else mret "not found"
      else throw MediaError
  end.

End cloudinary.

(** [upload.single('image')]: runs before the handler of the route; with no
    image part [req.file] stays undefined. *)
Definition upload_single (e : env) (image : option string) : M (option file) :=
  match image with
  | None => mret None
  | Some format => f ← cloudinary.upload e format; mret (Some f)
  end.

(** ** The models *)

(** [required: true] on a String path: present and not empty. *)
Definition required (v : option string) : bool :=
  match v with
  | Some s => truthy s
  | None => false
  end.

Module Memory.

(** The cast of a non-empty string assigned to the [date] path. *)
Definition cast_date (mg : mongoose) (s : string) : date_value :=
  match Date_cast mg s with
  | Some t => DateOk t
  | None => DateInvalid
  end.

(** Assignments to the paths of a document; the [title] path has
    [trim: true]. *)
Definition set_title (v : option string) (d : memory_doc) : memory_doc :=
  MemoryDoc (trim <$> v) (date d) (description d) (imageUrl d)
    (imagePublicId d) (createdAt d) (special d).
Definition set_date (v : date_value) (d : memory_doc) : memory_doc :=
  MemoryDoc (title d) v (description d) (imageUrl d)
    (imagePublicId d) (createdAt d) (special d).
Definition set_description (v : option string) (d : memory_doc) : memory_doc :=
  MemoryDoc (title d) (date d) v (imageUrl d)
    (imagePublicId d) (createdAt d) (special d).
Definition set_special (v : option string) (d : memory_doc) : memory_doc :=
  MemoryDoc (title d) (date d) (description d) (imageUrl d)
    (imagePublicId d) (createdAt d) v.
Definition set_imageUrl (v : option string) (d : memory_doc) : memory_doc :=
  MemoryDoc (title d) (date d) (description d) v
    (imagePublicId d) (createdAt d) (special d).
Definition set_imagePublicId (v : option string) (d : memory_doc) : memory_doc :=
  MemoryDoc (title d) (date d) (description d) (imageUrl d)
    v (createdAt d) (special d).

(** [new Memory({title, date, description, special, imageUrl,
    imagePublicId})]: a fresh [_id], [createdAt] defaulting to
    [Date.now]. *)
Definition new (mg : mongoose) (e : env)
    (title date description special imageUrl imagePublicId : option string)
    : M (ObjectId * memory_doc) :=
  w ← get_world;
  mret (new_id w,
        MemoryDoc (trim <$> title)
          (js_or (cast_date mg) date DateUndefined)
          description imageUrl imagePublicId (now e) special).

(** The validation run by [save]: the five required paths. *)
Definition validate (d : memory_doc) : bool :=
  required (title d)
  && match date d with DateOk _ => true | _ => false end
  && required (description d)
  && required (imageUrl d)
  && required (imagePublicId d).

(** What [save] does to the store once the document has passed the
    validation: a document that is in the collection is written back
    under its id; one that is not is inserted, and its id is issued. *)
Definition write (o : ObjectId) (d : memory_doc) (w : world) : world :=
  if bool_decide (o ∈ dom (memories w))
  then set_memories (insert o d) w
  else set_issued (λ ids, {[o]} ∪ ids) (set_memories (insert o d) w).

Definition save (doc : ObjectId * memory_doc) : M (ObjectId * memory_doc) :=
  if validate doc.2 then
    _ ← modify_world (write doc.1 doc.2);
    mret doc
  else throw ValidationError.

Definition findById (id : id_param) : M (option (ObjectId * memory_doc)) :=
  match id with
  | IdMalformed _ => throw CastError
  | IdOk o => w ← get_world; mret (pair o <$> memories w !! o)
  end.

Definition findByIdAndDelete (id : id_param)
    : M (option (ObjectId * memory_doc)) :=
  match id with
  | IdMalformed _ => throw CastError
  | IdOk o =>
      w ← get_world;
      _ ← modify_world (set_memories (delete o));
      mret (pair o <$> memories w !! o)
  end.

(** The order of [sort({createdAt: -1})]. *)
Definition newer_first (x y : ObjectId * memory_doc) : Prop :=
  (createdAt y.2 ≤ createdAt x.2)%Z.

Global Instance newer_first_dec x y : Decision (newer_first x y) :=
  Z_le_dec _ _.

(** [Memory.find().sort({createdAt: -1})] *)
Definition find_sort_createdAt_desc : M (list (ObjectId * memory_doc)) :=
  w ← get_world;
  mret (merge_sort newer_first (map_to_list (memories w))).

End Memory.

(** The three fields a request body gives for a group, and the update
    object built from them.  [None] is [undefined]. *)
Record group_fields := GroupFields {
  f_name : option string;
  f_description : option string;
  f_memoryIds : option (list ObjectId)
}.

Module Group.

(** [new Group({name, description, memoryIds})]; the [name] path has
    [trim: true]. *)
Definition new (e : env) (name description : option string)
    (memoryIds : list ObjectId) : M (ObjectId * group_doc) :=
  w ← get_world;
  mret (new_id w,
        GroupDoc (trim <$> name) description (Some memoryIds) (now e)).

Definition validate (d : group_doc) : bool := required (name d).

(** As for a memory: written back if it is there, inserted with its id
    issued if it is not. *)
Definition write (o : ObjectId) (d : group_doc) (w : world) : world :=
  if bool_decide (o ∈ dom (groups w))
  then set_groups (insert o d) w
  else set_issued (λ ids, {[o]} ∪ ids) (set_groups (insert o d) w).

Definition save (doc : ObjectId * group_doc) : M (ObjectId * group_doc) :=
  if validate doc.2 then
    _ ← modify_world (write doc.1 doc.2);
    mret doc
  else throw ValidationError.

(** [Group.find()] *)
Definition find : M (list (ObjectId * group_doc)) :=
  w ← get_world; mret (map_to_list (groups w)).

(** One key of an update object written to a path: a given value
    replaces the old one; an [undefined] one is dropped, or written as
    null, as Mongoose is set up. *)
Definition write_path {A} (mg : mongoose) (new old : option A) : option A :=
  match new with
  | Some v => Some v
  | None => if omitUndefined mg then old else None
  end.

Definition apply_update (mg : mongoose) (u : group_fields) (d : group_doc)
    : group_doc :=
  GroupDoc (write_path mg (trim <$> f_name u) (name d))
    (write_path mg (f_description u) (g_description d))
    (write_path mg (f_memoryIds u) (memoryIds d))
    (g_createdAt d).

(** [Group.findByIdAndUpdate(id, update, { new: true })]: no validation
    is run; the document after the update is returned, or null. *)
Definition findByIdAndUpdate (mg : mongoose) (id : id_param)
    (update : group_fields) : M (option (ObjectId * group_doc)) :=
  match id with
  | IdMalformed _ => throw CastError
  | IdOk o =>
      w ← get_world;
      match groups w !! o with
      | None => mret None
      | Some d =>
          _ ← modify_world (set_groups (insert o (apply_update mg update d)));
          mret (Some (o, apply_update mg update d))
      end
  end.

Definition findByIdAndDelete (id : id_param)
    : M (option (ObjectId * group_doc)) :=
  match id with
  | IdMalformed _ => throw CastError
  | IdOk o =>
      w ← get_world;
      _ ← modify_world (set_groups (delete o));
      mret (pair o <$> groups w !! o)
  end.

End Group.

(** ** Requests and responses *)

(** The text fields of a multipart body sent to the memory routes. *)
Record memory_fields := MemoryFields {
  b_title : option string;
  b_date : option string;
  b_description : option string;
  b_special : option string
}.

Inductive body :=
  | JsonError (error : string)
  | JsonMessage (message : string)
  | JsonMemory (doc : ObjectId * memory_doc)
  | JsonMemories (docs : list (ObjectId * memory_doc))
  | JsonGroup (doc : ObjectId * group_doc)
  | JsonGroups (docs : list (ObjectId * group_doc))
  | ErrorPage.

Record response := Response {
  status : nat;
  json : body
}.

(** A request: the route, the [:id] segment, the body and, on the two
    multipart routes, the format of the image part if there is one. *)
Inductive request :=
  | GET_groups
  | POST_groups (b : group_fields)
  | PUT_group (id : id_param) (b : group_fields)
  | DELETE_group (id : id_param)
  | GET_memories
  | POST_memories (b : memory_fields) (image : option string)
  | DELETE_memory (id : id_param)
  | PUT_memory (id : id_param) (b : memory_fields) (image : option string).

Definition server_error : error → M response :=
  λ _, mret (Response 500 (JsonError "Server error")).

(** ** The handlers *)

(** [app.get('/api/groups', ...)] *)
Definition get_groups : M response :=
  try_catch
    (groups ← Group.find;
     mret (Response 200 (JsonGroups groups)))
    server_error.

(** [app.post('/api/groups', ...)] *)
Definition post_groups (e : env) (b : group_fields) : M response :=
  try_catch
    (newGroup ← Group.new e (f_name b) (f_description b)
                  (default [] (f_memoryIds b));
     savedGroup ← Group.save newGroup;
     mret (Response 201 (JsonGroup savedGroup)))
    server_error.

(** [app.put('/api/groups/:id', ...)] *)
Definition put_group (mg : mongoose) (id : id_param) (b : group_fields)
    : M response :=
  try_catch
    (updatedGroup ← Group.findByIdAndUpdate mg id
                      (GroupFields (f_name b) (f_description b) (f_memoryIds b));
     match updatedGroup with
     | None => mret (Response 404 (JsonError "Group not found"))
     | Some g => mret (Response 200 (JsonGroup g))
     end)
    server_error.

(** [app.delete('/api/groups/:id', ...)] *)
Definition delete_group (id : id_param) : M response :=
  try_catch
    (deletedGroup ← Group.findByIdAndDelete id;
     match deletedGroup with
     | None => mret (Response 404 (JsonError "Group not found"))
     | Some _ => mret (Response 200 (JsonMessage "Group deleted successfully"))
     end)
    server_error.

(** [app.get('/api/memories', ...)] *)
Definition get_memories : M response :=
  try_catch
    (memories ← Memory.find_sort_createdAt_desc;
     mret (Response 200 (JsonMemories memories)))
    server_error.

(** [app.post('/api/memories', upload.single('image'), ...)], the handler
    after the upload middleware has run. *)
Definition post_memories (mg : mongoose) (e : env) (b : memory_fields)
    (req_file : option file) : M response :=
  try_catch
    (match req_file with
     | None => mret (Response 400 (JsonError "Image is required"))
     | Some f =>
         newMemory ← Memory.new mg e (b_title b) (b_date b) (b_description b)
                       (b_special b) (Some (path f)) (Some (filename f));
         savedMemory ← Memory.save newMemory;
         mret (Response 201 (JsonMemory savedMemory))
     end)
    server_error.

(** [app.delete('/api/memories/:id', ...)] *)
Definition delete_memory (e : env) (id : id_param) : M response :=
  try_catch
    (memory ← Memory.findById id;
     match memory with
     | None => mret (Response 404 (JsonError "Memory not found"))
     | Some (_, memory) =>
         _ ← cloudinary.destroy e (imagePublicId memory);
         _ ← Memory.findByIdAndDelete id;
         mret (Response 200 (JsonMessage "Memory deleted successfully"))
     end)
    server_error.

(** The four assignments [memory.x = x || memory.x] of the update route. *)
Definition assign_fields (mg : mongoose) (b : memory_fields) (memory : memory_doc)
    : memory_doc :=
  let memory := Memory.set_title (js_or Some (b_title b) (title memory)) memory in
  let memory := Memory.set_date
                  (js_or (Memory.cast_date mg) (b_date b) (date memory)) memory in
  let memory := Memory.set_description
                  (js_or Some (b_description b) (description memory)) memory in
  Memory.set_special (js_or Some (b_special b) (special memory)) memory.

(** [app.put('/api/memories/:id', upload.single('image'), ...)], the
    handler after the upload middleware has run. *)
Definition put_memory (mg : mongoose) (e : env) (id : id_param)
    (b : memory_fields) (req_file : option file) : M response :=
  try_catch
    (memory ← Memory.findById id;
     match memory with
     | None => mret (Response 404 (JsonError "Memory not found"))
     | Some (o, memory) =>
         let memory := assign_fields mg b memory in
         memory ← match req_file with
                  | Some f =>
                      _ ← cloudinary.destroy e (imagePublicId memory);
                      mret (Memory.set_imagePublicId (Some (filename f))
                              (Memory.set_imageUrl (Some (path f)) memory))
                  | None => mret memory
                  end;
         updatedMemory ← Memory.save (o, memory);
         mret (Response 200 (JsonMemory updatedMemory))
     end)
    server_error.

(** ** The application *)

(** A route with its middleware. *)
Definition app (mg : mongoose) (e : env) (req : request) : M response :=
  match req with
  | GET_groups => get_groups
  | POST_groups b => post_groups e b
  | PUT_group id b => put_group mg id b
  | DELETE_group id => delete_group id
  | GET_memories => get_memories
  | POST_memories b image =>
      req_file ← upload_single e image; post_memories mg e b req_file
  | DELETE_memory id => delete_memory e id
  | PUT_memory id b image =>
      req_file ← upload_single e image; put_memory mg e id b req_file
  end.

(** One request served: an error passed on by a middleware reaches the
    default error handler of Express, which answers 500 with a page. *)
Definition serve (mg : mongoose) (e : env) (req : request) (w : world)
    : response * world :=
  match app mg e req w with
  | (Returned r, w') => (r, w')
  | (Thrown _, w') => (Response 500 ErrorPage, w')
  end.

(** A sequence of requests served one after the other. *)
Fixpoint serve_all (mg : mongoose) (reqs : list (env * request)) (w : world)
    : world :=
  match reqs with
  | [] => w
  | (e, req) :: reqs => serve_all mg reqs (serve mg e req w).2
  end.

(** ** The older server file *)

(** [server.js] has the memory routes only, and its schema has no
    [special] path.  Its listing and delete handlers are, word for word,
    [get_memories] and [delete_memory] above; its create and update
    handlers leave [special] out. *)
Module server_js.

(** [app.post('/api/memories', upload.single('image'), ...)] *)
Definition post_memories (mg : mongoose) (e : env) (b : memory_fields)
    (req_file : option file) : M response :=
  try_catch
    (match req_file with
     | None => mret (Response 400 (JsonError "Image is required"))
     | Some f =>
         newMemory ← Memory.new mg e (b_title b) (b_date b) (b_description b)
                       None (Some (path f)) (Some (filename f));
         savedMemory ← Memory.save newMemory;
         mret (Response 201 (JsonMemory savedMemory))
     end)
    server_error.

(** The three assignments [memory.x = x || memory.x]. *)
Definition assign_fields (mg : mongoose) (b : memory_fields) (memory : memory_doc)
    : memory_doc :=
  let memory := Memory.set_title (js_or Some (b_title b) (title memory)) memory in
  let memory := Memory.set_date
                  (js_or (Memory.cast_date mg) (b_date b) (date memory)) memory in
  Memory.set_description (js_or Some (b_description b) (description memory)) memory.

(** [app.put('/api/memories/:id', upload.single('image'), ...)] *)
Definition put_memory (mg : mongoose) (e : env) (id : id_param)
    (b : memory_fields) (req_file : option file) : M response :=
  try_catch
    (memory ← Memory.findById id;
     match memory with
     | None => mret (Response 404 (JsonError "Memory not found"))
     | Some (o, memory) =>
         let memory := assign_fields mg b memory in
         memory ← match req_file with
                  | Some f =>
                      _ ← cloudinary.destroy e (imagePublicId memory);
                      mret (Memory.set_imagePublicId (Some (filename f))
                              (Memory.set_imageUrl (Some (path f)) memory))
                  | None => mret memory
                  end;
         updatedMemory ← Memory.save (o, memory);
         mret (Response 200 (JsonMemory updatedMemory))
     end)
    server_error.

(** The routes of [server.js]; any other path gets the 404 page of
    Express. *)
Definition app (mg : mongoose) (e : env) (req : request) : M response :=
  match req with
  | GET_memories => get_memories
  | POST_memories b image =>
      req_file ← upload_single e image; post_memories mg e b req_file
  | DELETE_memory id => delete_memory e id
  | PUT_memory id b image =>
      req_file ← upload_single e image; put_memory mg e id b req_file
  | _ => mret (Response 404 ErrorPage)
  end.

End server_js.

(** A body of a memory route with its [special] field dropped. *)
Definition without_special (b : memory_fields) : memory_fields :=
  MemoryFields (b_title b) (b_date b) (b_description b) None.

Definition drop_special (req : request) : request :=
  match req with
  | POST_memories b image => POST_memories (without_special b) image
  | PUT_memory id b image => PUT_memory id (without_special b) image
  | _ => req
  end.

Definition memory_route (req : request) : bool :=
  match req with
  | GET_memories | POST_memories _ _ | DELETE_memory _ | PUT_memory _ _ _ => true
  | _ => false
  end.

(** ** Orphaned blobs and well-formed documents *)

(** An [:id] that resolves to no document of the Memory collection: an
    ObjectId that is not in it, or no ObjectId at all. *)
Definition absent (id : id_param) (w : world) : Prop :=
  match id with
  | IdOk o => memories w !! o = None
  | IdMalformed _ => True
  end.

(** A public id some Memory document refers to. *)
Definition referenced (w : world) (public_id : string) : Prop :=
  ∃ o d, memories w !! o = Some d ∧ imagePublicId d = Some public_id.

(** A blob alive at the media host that no Memory document refers to. *)
Definition orphaned (w : world) (public_id : string) : Prop :=
  public_id ∈ blobs w ∧ ¬ referenced w public_id.

(** What [save] leaves in the collection: a document that passes the
    validation and whose title went through the [trim] setter. *)
Definition stored (d : memory_doc) : Prop :=
  Memory.validate d = true ∧ title d = trim <$> title d.

(** The two assignments an update makes when it carries a new image. *)
Definition with_image (f : file) (d : memory_doc) : memory_doc :=
  Memory.set_imagePublicId (Some (filename f))
    (Memory.set_imageUrl (Some (path f)) d).

(** The document [new Memory({...})] builds from a body and [req.file]. *)
Definition new_memory (mg : mongoose) (e : env) (b : memory_fields) (f : file)
    : memory_doc :=
  MemoryDoc (trim <$> b_title b)
    (js_or (Memory.cast_date mg) (b_date b) DateUndefined)
    (b_description b) (Some (path f)) (Some (filename f)) (now e) (b_special b).

(** The document [new Group({...})] builds from a body. *)
Definition new_group (e : env) (b : group_fields) : group_doc :=
  GroupDoc (trim <$> f_name b) (f_description b)
    (Some (default [] (f_memoryIds b))) (now e).

(** The image pair of a document after a request: the one the document
    had before, or the one the media host handed out for the image part of
    this very request. *)
Definition pair_kept (w : world) (o : ObjectId) (d' : memory_doc) : Prop :=
  ∃ d, memories w !! o = Some d
       ∧ imageUrl d' = imageUrl d ∧ imagePublicId d' = imagePublicId d.

Definition pair_from_host (e : env) (image : option string) (d' : memory_doc)
    : Prop :=
  ∃ format url public_id,
    image = Some format ∧ format ∈ allowed_formats
    ∧ upload_reply e = Some (url, public_id)
    ∧ imageUrl d' = Some url ∧ imagePublicId d' = Some public_id.

(** Every document of the Memory collection is one [save] has let in. *)
Definition all_stored (w : world) : Prop :=
  map_Forall (λ _ d, stored d) (memories w).

(** Does the request carry an image part. *)
Definition image_part (req : request) : option string :=
  match req with
  | POST_memories _ image | PUT_memory _ _ image => image
  | _ => None
  end.

(** The order of the listing when no two documents share a [createdAt]. *)
Definition strictly_newer_first (x y : ObjectId * memory_doc) : Prop :=
  (createdAt y.2 < createdAt x.2)%Z.

(** ** What a computation leaves alone *)

(** A computation keeps a relation between the world it starts in and the
    world it ends in, whether it returns or throws. *)
Definition preserves {A} (R : relation world) (m : M A) : Prop :=
  ∀ w, R w (m w).2.

Definition same_groups : relation world := λ w w', groups w' = groups w.

Definition same_memories : relation world := λ w w', memories w' = memories w.

Definition same_media : relation world :=
  λ w w', blobs w' = blobs w ∧ media_log w' = media_log w.

(** What a computation can return, and what a handler answers with. *)
Definition returns_only {A} (Q : A → Prop) (m : M A) : Prop :=
  ∀ w a w', m w = (Returned a, w') → Q a.

Definition answers (Q : response → Prop) (m : M response) : Prop :=
  ∀ w, ∃ r w', m w = (Returned r, w') ∧ Q r.

(** A response written by a handler, not by the error handler of Express. *)
Definition json_answer (r : response) : Prop := json r ≠ ErrorPage.

(** The one document of the Memory collection a request can write: the
    one its [:id] names, or the one it creates. *)
Definition target (req : request) (w : world) : option ObjectId :=
  match req with
  | DELETE_memory (IdOk o) | PUT_memory (IdOk o) _ _ => Some o
  | POST_memories _ _ => Some (new_id w)
  | _ => None
  end.


(** Is the request an update of a memory. *)
Definition is_update (req : request) : bool :=
  match req with PUT_memory _ _ _ => true | _ => false end.

(** Do the text fields of a body pass the schema of a new memory: a title
    that is not blank, a date that casts, a description. *)
Definition body_valid (mg : mongoose) (b : memory_fields) : bool :=
  required (trim <$> b_title b)
  && match js_or (Memory.cast_date mg) (b_date b) DateUndefined with
     | DateOk _ => true
     | _ => false
     end
  && required (b_description b).

(** ** A small deployment to run the handlers on *)

Definition sample_mongoose : mongoose :=
  Mongoose (λ s, if String.eqb s "2024-05-17" then Some 1715904000000%Z else None)
           false.

Definition sample_env : env :=
  Env 1716000000000 (Some ("https://res.example/memories/a1.png", "memories/a1")) true.

Definition second_upload : env :=
  Env 1716000000500 (Some ("https://res.example/memories/b2.jpg", "memories/b2")) true.

Definition host_down : env :=
  Env 1716000000500 (Some ("https://res.example/memories/b2.jpg", "memories/b2")) false.

(** Another upload served within the same millisecond as [sample_env]. *)
Definition same_instant : env :=
  Env 1716000000000 (Some ("https://res.example/memories/b2.jpg", "memories/b2")) true.

Definition no_fields : memory_fields := MemoryFields None None None None.

(** A no-break space, U+00A0, and a body whose title is nothing else. *)
Definition nbsp : string :=
  String (ascii_of_nat 194) (String (ascii_of_nat 160) EmptyString).

Definition nbsp_title : memory_fields :=
  MemoryFields (Some nbsp) (Some "2024-05-17") (Some "Sun and sand") None.

(** A body whose title is nothing but white space. *)
Definition blank_title : memory_fields :=
  MemoryFields (Some "   ") (Some "2024-05-17") (Some "Sun and sand") None.

(** An upload of a format the storage does not allow. *)
Definition webp : string := "webp".

Definition sample_fields : memory_fields :=
  MemoryFields (Some "Beach day") (Some "2024-05-17") (Some "Sun and sand") None.

Definition sample_memory : memory_doc :=
  MemoryDoc (Some "Beach day") (DateOk 1715904000000) (Some "Sun and sand")
    (Some "https://res.example/memories/a1.png") (Some "memories/a1")
    1716000000000 None.

(** The world after one memory has been created on an empty store. *)
Definition one_memory : world :=
  (serve sample_mongoose sample_env (POST_memories sample_fields (Some "png"))
     empty_world).2.

(** Two memories created in the same millisecond, and two created half a
    second apart. *)
Definition two_at_once : world :=
  serve_all sample_mongoose
    [(sample_env, POST_memories sample_fields (Some "png"));
     (same_instant, POST_memories sample_fields (Some "jpg"))] empty_world.

Definition two_apart : world :=
  serve_all sample_mongoose
    [(sample_env, POST_memories sample_fields (Some "png"));
     (second_upload, POST_memories sample_fields (Some "jpg"))] empty_world.

(** A group that lists the memory of [one_memory], beside that memory. *)
Definition memory_in_group : world :=
  serve_all sample_mongoose
    [(sample_env, POST_memories sample_fields (Some "png"));
     (sample_env, POST_groups (GroupFields (Some "Holidays") (Some "2024") (Some [0%N])))]
    empty_world.

Definition sample_group : group_doc :=
  GroupDoc (Some "Holidays") (Some "2024") (Some [0%N]) 1716000000000.

Definition one_group : world :=
  (serve sample_mongoose sample_env
     (POST_groups (GroupFields (Some "Holidays") (Some "2024") (Some [0%N])))
     empty_world).2.

(** * Properties *)

(** ** Trimming *)

Lemma trim_start_eq s :
  trim_start s = match space_rest s with Some r => trim_start r | None => s end.
Proof.
  destruct s as [|c1 s1]; [done|]. cbn [trim_start space_rest].
  destruct (space_at (code1 c1)); [done|].
  destruct s1 as [|c2 s2]; [done|].
  destruct (space_at (code2 c1 c2)); [done|].
  destruct s2 as [|c3 s3]; [done|].
  by destruct (space_at (code3 c1 c2 c3)).
Qed.

Lemma space_rest_length s r :
  space_rest s = Some r → (String.length r < String.length s)%nat.
Proof.
  destruct s as [|c1 s1]; [done|]. cbn [space_rest].
  destruct (space_at (code1 c1)); [intros [= <-]; cbn; lia|].
  destruct s1 as [|c2 s2]; [done|].
  destruct (space_at (code2 c1 c2)); [intros [= <-]; cbn; lia|].
  destruct s2 as [|c3 s3]; [done|].
  destruct (space_at (code3 c1 c2 c3)); [intros [= <-]; cbn; lia|done].
Qed.

Lemma space_rest_app s r t :
  space_rest s = Some r → space_rest (s ++ t)%string = Some (r ++ t)%string.
Proof.
  destruct s as [|c1 s1]; [done|].
  change (String c1 s1 ++ t)%string with (String c1 (s1 ++ t)%string).
  cbn [space_rest].
  destruct (space_at (code1 c1)); [by intros [= <-]|].
  destruct s1 as [|c2 s2]; [done|].
  change (String c2 s2 ++ t)%string with (String c2 (s2 ++ t)%string).
  cbn iota. destruct (space_at (code2 c1 c2)); [by intros [= <-]|].
  destruct s2 as [|c3 s3]; [done|].
  change (String c3 s3 ++ t)%string with (String c3 (s3 ++ t)%string).
  cbn iota. destruct (space_at (code3 c1 c2 c3)); [by intros [= <-]|done].
Qed.

(** What is left of a string after its leading white space is empty or
    starts with no white space. *)
Lemma trim_start_done s :
  trim_start s = EmptyString ∨ space_rest (trim_start s) = None.
Proof.
  remember (String.length s) as n eqn:Hn. revert s Hn.
  induction n as [n IH] using lt_wf_ind. intros s ->.
  rewrite trim_start_eq. destruct (space_rest s) as [r|] eqn:Hr.
  - apply (IH (String.length r)); [by apply space_rest_length|done].
  - by right.
Qed.

Lemma trim_start_fixed s : space_rest s = None → trim_start s = s.
Proof. intros Hs. by rewrite trim_start_eq, Hs. Qed.

Lemma all_space_app s t :
  all_space s = true → all_space t = true → all_space (s ++ t)%string = true.
Proof.
  remember (String.length s) as n eqn:Hn. revert s Hn.
  induction n as [n IH] using lt_wf_ind. intros s -> Hs Ht.
  destruct s as [|c s']; [done|].
  unfold all_space in Hs |- *. rewrite trim_start_eq in Hs.
  destruct (space_rest (String c s')) as [r|] eqn:Hr; [|done].
  rewrite trim_start_eq, (space_rest_app _ _ t Hr).
  apply (IH (String.length r)); [by apply space_rest_length|done..].
Qed.

Lemma trim_end_split s :
  ∃ t, s = (trim_end s ++ t)%string ∧ all_space t = true.
Proof.
  induction s as [|c s (t & Hs & Ht)]; [by exists EmptyString|].
  cbn [trim_end]. destruct (all_space (String c s)) eqn:Hall.
  - by exists (String c s).
  - exists t. split; [|done].
    change (String c s = String c (trim_end s ++ t)%string). by rewrite <- Hs.
Qed.

Lemma trim_end_idemp s : trim_end (trim_end s) = trim_end s.
Proof.
  induction s as [|c s IH]; [done|]. cbn [trim_end].
  destruct (all_space (String c s)) eqn:Hall; [done|].
  cbn [trim_end]. rewrite IH.
  destruct (all_space (String c (trim_end s))) eqn:Hall'; [|done].
  destruct (trim_end_split s) as (t & Hs & Ht).
  pose proof (all_space_app _ _ Hall' Ht) as Happ.
  change (all_space (String c (trim_end s ++ t)%string) = true) in Happ.
  rewrite <- Hs in Happ. congruence.
Qed.

Lemma trim_idemp s : trim (trim s) = trim s.
Proof.
  unfold trim.
  assert (Hfix : trim_start (trim_end (trim_start s)) = trim_end (trim_start s)).
  { destruct (trim_start_done s) as [->|Hnone]; [done|].
    destruct (trim_end_split (trim_start s)) as (t & Hs & Ht).
    apply trim_start_fixed.
    destruct (space_rest (trim_end (trim_start s))) as [r|] eqn:Hr; [|done].
    apply (space_rest_app _ _ t) in Hr. rewrite <- Hs in Hr. congruence. }
  rewrite Hfix. apply trim_end_idemp.
Qed.

(** A title or a name made of no-break spaces is blank: it trims to the
    empty string and fails [required]. *)
Lemma nbsp_is_blank :
  trim nbsp = "" ∧ trim (nbsp ++ " Beach day" ++ nbsp)%string = "Beach day"
  ∧ required (trim <$> Some (nbsp ++ nbsp)%string) = false.
Proof. repeat split; reflexivity. Qed.

(** ** Running a handler *)

Lemma bind_returned {A B} (m : M A) (f : A → M B) w a w' :
  m w = (Returned a, w') → (m ≫= f) w = f a w'.
Proof. unfold mbind, M_bind. by intros ->. Qed.

Lemma bind_thrown {A B} (m : M A) (f : A → M B) w e w' :
  m w = (Thrown e, w') → (m ≫= f) w = (Thrown e, w').
Proof. unfold mbind, M_bind. by intros ->. Qed.

(** Unfolds the monad and the store operations down to the world. *)
Ltac run :=
  unfold serve, app, upload_single, get_groups, post_groups, put_group,
    delete_group, get_memories, post_memories, delete_memory, put_memory,
    server_error, try_catch,
    Memory.findById, Memory.findByIdAndDelete, Memory.save, Memory.new,
    Memory.find_sort_createdAt_desc,
    Group.find, Group.new, Group.save, Group.findByIdAndUpdate,
    Group.findByIdAndDelete,
    cloudinary.upload, cloudinary.destroy,
    throw, get_world, modify_world, mbind, M_bind, mret, M_ret;
  cbn [fst snd memories groups blobs media_log issued
       set_memories set_groups set_blobs log_call set_issued].

(** The destroy call of the media host, by what the host does. *)
Lemma destroy_unreachable e p w :
  destroy_reachable e = false →
  cloudinary.destroy e (Some p) w = (Thrown MediaError, log_call (Destroy (Some p)) w).
Proof. intros He. run. by rewrite He. Qed.

Lemma destroy_reachable_returns e p w :
  destroy_reachable e = true →
  ∃ result,
    cloudinary.destroy e (Some p) w
    = (Returned result,
       set_blobs (λ b, b ∖ {[p]}) (log_call (Destroy (Some p)) w))
    ∧ result = (if bool_decide (p ∈ blobs w) then "ok" else "not found").
Proof.
  intros He. run. rewrite He.
  change (blobs (log_call (Destroy (Some p)) w)) with (blobs w).
  destruct (bool_decide (p ∈ blobs w)) eqn:Hp; eexists; (split; [|done]); [done|].
  apply bool_decide_eq_false in Hp.
  f_equal. unfold set_blobs, log_call; simpl.
  f_equal. symmetry. by apply difference_disjoint_L, disjoint_singleton_r.
Qed.

Lemma upload_accepted e format url public_id w :
  format ∈ allowed_formats → upload_reply e = Some (url, public_id) →
  cloudinary.upload e format w
  = (Returned (File url public_id),
     set_blobs (λ b, {[public_id]} ∪ b) (log_call (Upload format) w)).
Proof. intros Hf He. run. rewrite bool_decide_true, He by done. done. Qed.

(** The store operations, by what they find. *)
Lemma Memory_findById_ok o w :
  Memory.findById (IdOk o) w = (Returned (pair o <$> memories w !! o), w).
Proof. done. Qed.

Lemma Memory_findByIdAndDelete_ok o w :
  Memory.findByIdAndDelete (IdOk o) w
  = (Returned (pair o <$> memories w !! o), set_memories (delete o) w).
Proof. done. Qed.

Lemma Memory_save_valid o d w :
  Memory.validate d = true → is_Some (memories w !! o) →
  Memory.save (o, d) w = (Returned (o, d), set_memories (insert o d) w).
Proof.
  intros Hv Ho%elem_of_dom. unfold Memory.save. cbn [fst snd]. rewrite Hv.
  unfold modify_world, mbind, M_bind, Memory.write. by rewrite bool_decide_true.
Qed.

Lemma new_id_fresh w :
  memories w !! new_id w = None ∧ groups w !! new_id w = None
  ∧ new_id w ∉ issued w.
Proof.
  pose proof (is_fresh (used_ids w)) as Hfresh. unfold used_ids in Hfresh.
  rewrite !not_elem_of_union, !not_elem_of_dom in Hfresh. tauto.
Qed.

Lemma Memory_save_new o d w :
  Memory.validate d = true → memories w !! o = None →
  Memory.save (o, d) w
  = (Returned (o, d),
     set_issued (λ ids, {[o]} ∪ ids) (set_memories (insert o d) w)).
Proof.
  intros Hv Ho%not_elem_of_dom. unfold Memory.save. cbn [fst snd]. rewrite Hv.
  unfold modify_world, mbind, M_bind, Memory.write. by rewrite bool_decide_false.
Qed.

Lemma Memory_save_invalid o d w :
  Memory.validate d = false →
  Memory.save (o, d) w = (Thrown ValidationError, w).
Proof. intros Hv. unfold Memory.save. cbn [fst snd]. by rewrite Hv. Qed.

Lemma Group_save_new o d w :
  Group.validate d = true → groups w !! o = None →
  Group.save (o, d) w
  = (Returned (o, d),
     set_issued (λ ids, {[o]} ∪ ids) (set_groups (insert o d) w)).
Proof.
  intros Hv Ho%not_elem_of_dom. unfold Group.save. cbn [fst snd]. rewrite Hv.
  unfold modify_world, mbind, M_bind, Group.write. by rewrite bool_decide_false.
Qed.

(** One step of a handler: the first operation of a sequence is replaced
    by its outcome. *)
Ltac step H :=
  first [ rewrite (bind_returned _ _ _ _ _ H)
        | rewrite (bind_thrown _ _ _ _ _ H) ].

Lemma upload_single_accepted e format url public_id w :
  format ∈ allowed_formats → upload_reply e = Some (url, public_id) →
  upload_single e (Some format) w
  = (Returned (Some (File url public_id)),
     set_blobs (λ b, {[public_id]} ∪ b) (log_call (Upload format) w)).
Proof.
  intros Hf He. unfold upload_single.
  by rewrite (bind_returned _ _ _ _ _ (upload_accepted _ _ _ _ _ Hf He)).
Qed.

Lemma upload_refused e format w :
  format ∉ allowed_formats ∨ upload_reply e = None →
  cloudinary.upload e format w = (Thrown MediaError, log_call (Upload format) w).
Proof.
  intros Hr. unfold cloudinary.upload, modify_world, mbind, M_bind.
  case_bool_decide as Hf; [|done].
  destruct Hr as [Hr|Hr]; [done|]. by rewrite Hr.
Qed.

Lemma upload_single_refused e format w :
  format ∉ allowed_formats ∨ upload_reply e = None →
  upload_single e (Some format) w
  = (Thrown MediaError, log_call (Upload format) w).
Proof.
  intros Hr. unfold upload_single. by step (upload_refused e format w Hr).
Qed.

(** The upload either goes through or is refused; nothing else. *)
Lemma upload_cases e format :
  (format ∈ allowed_formats ∧ ∃ url public_id, upload_reply e = Some (url, public_id))
  ∨ (format ∉ allowed_formats ∨ upload_reply e = None).
Proof.
  destruct (decide (format ∈ allowed_formats)) as [Hf|Hf]; [|by right; left].
  destruct (upload_reply e) as [[url public_id]|] eqn:He; [|by right; right].
  left. eauto.
Qed.

Lemma upload_single_none e w : upload_single e None w = (Returned None, w).
Proof. done. Qed.

Lemma one_memory_holds : memories one_memory = {[0%N := sample_memory]}.
Proof. vm_compute. reflexivity. Qed.

Lemma one_group_holds : groups one_group = {[0%N := sample_group]}.
Proof. vm_compute. reflexivity. Qed.

(** ** The two server files agree on the memory routes *)

Lemma server_js_assign_fields mg b d :
  server_js.assign_fields mg b d = assign_fields mg (without_special b) d.
Proof. done. Qed.

(** X17: on its four routes [server.js] does what the later file does
    with the [special] field of the body dropped, response and world
    alike; what is proved of the memory handlers below holds of both
    files. *)
Lemma server_js_agrees mg e req w :
  memory_route req = true →
  server_js.app mg e req w = app mg e (drop_special req) w.
Proof. by destruct req. Qed.

(** ** Creating a memory without an image *)

(** C4: a create request with no image part is answered 400 with
    [{error: "Image is required"}] and leaves the world as it was: no call
    reaches the media host and nothing is written to either collection. *)
Theorem post_memories_without_image mg e b w :
  serve mg e (POST_memories b None) w
  = (Response 400 (JsonError "Image is required"), w).
Proof. reflexivity. Qed.

(** ** Deleting a memory *)

Lemma delete_memory_returned mg e w o d p :
  memories w !! o = Some d → imagePublicId d = Some p →
  destroy_reachable e = true →
  serve mg e (DELETE_memory (IdOk o)) w
  = (Response 200 (JsonMessage "Memory deleted successfully"),
     set_memories (delete o)
       (set_blobs (λ b, b ∖ {[p]}) (log_call (Destroy (Some p)) w))).
Proof.
  intros Hd Hp He. unfold serve, app, delete_memory, try_catch.
  step (Memory_findById_ok o w). rewrite Hd. cbn [fmap option_fmap option_map].
  rewrite Hp. destruct (destroy_reachable_returns e p w He) as (result & Hrun & _).
  step Hrun. by step (Memory_findByIdAndDelete_ok o
    (set_blobs (λ b, b ∖ {[p]}) (log_call (Destroy (Some p)) w))).
Qed.

Lemma delete_memory_rejected mg e w o d p :
  memories w !! o = Some d → imagePublicId d = Some p →
  destroy_reachable e = false →
  serve mg e (DELETE_memory (IdOk o)) w
  = (Response 500 (JsonError "Server error"), log_call (Destroy (Some p)) w).
Proof.
  intros Hd Hp He. unfold serve, app, delete_memory, try_catch.
  step (Memory_findById_ok o w). rewrite Hd. cbn [fmap option_fmap option_map].
  rewrite Hp. by step (destroy_unreachable e p w He).
Qed.

(** C1, as stated, fails: with one memory stored and the media host not
    answering the destroy call, the handler lands in its [catch], answers
    500 and the document is still there. *)
Lemma delete_memory_destroy_rejected_row_kept :
  let res := serve sample_mongoose host_down (DELETE_memory (IdOk 0%N)) one_memory in
  memories one_memory !! 0%N = Some sample_memory
  ∧ res.1 = Response 500 (JsonError "Server error")
  ∧ memories res.2 !! 0%N = Some sample_memory
  ∧ media_log res.2 = [Upload "png"; Destroy (Some "memories/a1")].
Proof. vm_compute. done. Qed.

(** C1, amended: for an id that resolves to a document, the destroy call is
    made for its blob; whenever that call returns — whatever the host
    reports, also when the blob was not there — the document is removed and
    the answer is 200; when the call rejects, the answer is 500 and the
    document stays. *)
Theorem delete_memory_after_destroy mg e w o d p :
  memories w !! o = Some d → imagePublicId d = Some p →
  let res := serve mg e (DELETE_memory (IdOk o)) w in
  media_log res.2 = media_log w ++ [Destroy (Some p)]
  ∧ (destroy_reachable e = true →
       res.1 = Response 200 (JsonMessage "Memory deleted successfully")
       ∧ memories res.2 = delete o (memories w)
       ∧ memories res.2 !! o = None
       ∧ blobs res.2 = blobs w ∖ {[p]})
  ∧ (destroy_reachable e = false →
       res.1 = Response 500 (JsonError "Server error")
       ∧ memories res.2 = memories w
       ∧ blobs res.2 = blobs w).
Proof.
  intros Hd Hp res. subst res. destruct (destroy_reachable e) eqn:He.
  - rewrite (delete_memory_returned mg e w o d p Hd Hp He). cbn.
    repeat split; try done. apply lookup_delete_eq.
  - rewrite (delete_memory_rejected mg e w o d p Hd Hp He). cbn.
    repeat split; done.
Qed.

Lemma delete_memory_after_destroy_witness :
  let res := serve sample_mongoose sample_env (DELETE_memory (IdOk 0%N)) one_memory in
  media_log res.2 = media_log one_memory ++ [Destroy (Some "memories/a1")]
  ∧ (destroy_reachable sample_env = true →
       res.1 = Response 200 (JsonMessage "Memory deleted successfully")
       ∧ memories res.2 = delete 0%N (memories one_memory)
       ∧ memories res.2 !! 0%N = None
       ∧ blobs res.2 = blobs one_memory ∖ {["memories/a1"]})
  ∧ (destroy_reachable sample_env = false →
       res.1 = Response 500 (JsonError "Server error")
       ∧ memories res.2 = memories one_memory
       ∧ blobs res.2 = blobs one_memory).
Proof.
  apply (delete_memory_after_destroy sample_mongoose sample_env one_memory
           0%N sample_memory "memories/a1"); reflexivity.
Defined.

(** ** Ids that resolve to nothing *)

Lemma put_memory_not_found mg e w o b req_file :
  memories w !! o = None →
  put_memory mg e (IdOk o) b req_file w
  = (Returned (Response 404 (JsonError "Memory not found")), w).
Proof.
  intros Hd. unfold put_memory, try_catch.
  step (Memory_findById_ok o w). by rewrite Hd.
Qed.

Lemma delete_memory_not_found e w o :
  memories w !! o = None →
  delete_memory e (IdOk o) w
  = (Returned (Response 404 (JsonError "Memory not found")), w).
Proof.
  intros Hd. unfold delete_memory, try_catch.
  step (Memory_findById_ok o w). by rewrite Hd.
Qed.

Lemma put_group_not_found mg w o b :
  groups w !! o = None →
  put_group mg (IdOk o) b w
  = (Returned (Response 404 (JsonError "Group not found")), w).
Proof.
  intros Hg. unfold put_group, try_catch, Group.findByIdAndUpdate.
  unfold mbind, M_bind, get_world. by rewrite Hg.
Qed.

Lemma delete_group_not_found w o :
  groups w !! o = None →
  delete_group (IdOk o) w
  = (Returned (Response 404 (JsonError "Group not found")), w).
Proof.
  intros Hg. unfold delete_group, try_catch, Group.findByIdAndDelete.
  unfold mbind, M_bind, get_world, modify_world, mret, M_ret. rewrite Hg.
  cbn [fmap option_fmap option_map]. unfold set_groups.
  rewrite (delete_id _ _ Hg). by destruct w.
Qed.

(** C3, as stated, fails on the update of a memory: the upload middleware
    has stored the attached image before the handler looks the id up, so
    the 404 comes after one call to the media host and with one more blob
    there. *)
Lemma put_memory_unknown_id_calls_media_host :
  let res := serve sample_mongoose sample_env
               (PUT_memory (IdOk 7%N) sample_fields (Some "png")) empty_world in
  memories empty_world !! 7%N = None
  ∧ res.1 = Response 404 (JsonError "Memory not found")
  ∧ media_log res.2 = [Upload "png"]
  ∧ "memories/a1" ∈ blobs res.2
  ∧ "memories/a1" ∉ blobs empty_world.
Proof.
  cbv zeta. split; [done|]. split; [by vm_compute|]. split; [by vm_compute|].
  split; [|by apply not_elem_of_empty]. apply (bool_decide_unpack _). by vm_compute.
Qed.

(** C3, amended: for a well-formed id that is in neither collection, the
    four handlers answer 404 with [{error: "<Entity> not found"}], write to
    no collection and call the media host not at all.  So do the served
    requests, but for an update of a memory that carries an image: there
    the upload middleware makes one store call before the handler; an
    accepted upload is followed by the same 404, with the blob stored, and
    a refused one by the 500 error page, neither with a write to a
    collection. *)
Theorem unknown_id_not_found mg e w o :
  (memories w !! o = None →
     (∀ b req_file,
        put_memory mg e (IdOk o) b req_file w
        = (Returned (Response 404 (JsonError "Memory not found")), w))
     ∧ delete_memory e (IdOk o) w
       = (Returned (Response 404 (JsonError "Memory not found")), w)
     ∧ serve mg e (DELETE_memory (IdOk o)) w
       = (Response 404 (JsonError "Memory not found"), w)
     ∧ (∀ b, serve mg e (PUT_memory (IdOk o) b None) w
             = (Response 404 (JsonError "Memory not found"), w))
     ∧ (∀ b format url public_id,
          format ∈ allowed_formats → upload_reply e = Some (url, public_id) →
          serve mg e (PUT_memory (IdOk o) b (Some format)) w
          = (Response 404 (JsonError "Memory not found"),
             set_blobs (λ b, {[public_id]} ∪ b) (log_call (Upload format) w)))
     ∧ (∀ b format,
          format ∉ allowed_formats ∨ upload_reply e = None →
          serve mg e (PUT_memory (IdOk o) b (Some format)) w
          = (Response 500 ErrorPage, log_call (Upload format) w)))
  ∧ (groups w !! o = None →
     (∀ b, put_group mg (IdOk o) b w
           = (Returned (Response 404 (JsonError "Group not found")), w))
     ∧ delete_group (IdOk o) w
       = (Returned (Response 404 (JsonError "Group not found")), w)
     ∧ (∀ b, serve mg e (PUT_group (IdOk o) b) w
             = (Response 404 (JsonError "Group not found"), w))
     ∧ serve mg e (DELETE_group (IdOk o)) w
       = (Response 404 (JsonError "Group not found"), w)).
Proof.
  split.
  - intros Hd. split; [|split; [|split; [|split; [|split]]]].
    + intros b req_file. by apply put_memory_not_found.
    + by apply delete_memory_not_found.
    + unfold serve, app. by rewrite delete_memory_not_found.
    + intros b. unfold serve, app. step (upload_single_none e w).
      by rewrite put_memory_not_found.
    + intros b format url public_id Hf He. unfold serve, app.
      step (upload_single_accepted e format url public_id w Hf He).
      by rewrite put_memory_not_found.
    + intros b format Hr. unfold serve, app.
      by step (upload_single_refused e format w Hr).
  - intros Hg. split; [|split; [|split]].
    + intros b. by apply put_group_not_found.
    + by apply delete_group_not_found.
    + intros b. unfold serve, app. by rewrite put_group_not_found.
    + unfold serve, app. by rewrite delete_group_not_found.
Qed.

Lemma unknown_id_not_found_witness :
  serve sample_mongoose sample_env (DELETE_memory (IdOk 7%N)) one_memory
  = (Response 404 (JsonError "Memory not found"), one_memory)
  ∧ serve sample_mongoose sample_env
      (PUT_memory (IdOk 7%N) sample_fields (Some webp)) one_memory
    = (Response 500 ErrorPage, log_call (Upload webp) one_memory)
  ∧ serve sample_mongoose sample_env (DELETE_group (IdOk 7%N)) one_memory
    = (Response 404 (JsonError "Group not found"), one_memory).
Proof.
  destruct (unknown_id_not_found sample_mongoose sample_env one_memory 7%N)
    as [Hm Hg].
  destruct Hm as (_ & _ & Hdelete & _ & _ & Hrefused); [reflexivity|].
  destruct Hg as (_ & _ & _ & Hgroup); [reflexivity|].
  split; [exact Hdelete|]. split; [|exact Hgroup].
  apply Hrefused. left. apply (bool_decide_unpack _). vm_compute. exact I.
Defined.

(** ** Updating a memory *)

(** The update handler on a document that is there, with no new image:
    the assignments, then [save]. *)
Lemma put_memory_plain mg e w o d b :
  memories w !! o = Some d →
  put_memory mg e (IdOk o) b None w
  = if Memory.validate (assign_fields mg b d)
    then (Returned (Response 200 (JsonMemory (o, assign_fields mg b d))),
          set_memories (insert o (assign_fields mg b d)) w)
    else (Returned (Response 500 (JsonError "Server error")), w).
Proof.
  intros Hd. unfold put_memory, try_catch.
  step (Memory_findById_ok o w). rewrite Hd. cbn [fmap option_fmap option_map].
  destruct (Memory.validate (assign_fields mg b d)) eqn:Hv.
  - unfold mbind at 1, M_bind at 1. unfold mret at 1, M_ret at 1.
    by step (Memory_save_valid o _ w Hv (mk_is_Some _ _ Hd)).
  - unfold mbind at 1, M_bind at 1. unfold mret at 1, M_ret at 1.
    by step (Memory_save_invalid o _ w Hv).
Qed.

(** The update handler on a document that is there, with a new image: the
    assignments, the destroy call for the old blob, then [save]. *)
Lemma put_memory_image mg e w o d p b f :
  memories w !! o = Some d → imagePublicId d = Some p →
  put_memory mg e (IdOk o) b (Some f) w
  = if destroy_reachable e then
      if Memory.validate (with_image f (assign_fields mg b d))
      then (Returned (Response 200
                        (JsonMemory (o, with_image f (assign_fields mg b d)))),
            set_memories (insert o (with_image f (assign_fields mg b d)))
              (set_blobs (λ b, b ∖ {[p]}) (log_call (Destroy (Some p)) w)))
      else (Returned (Response 500 (JsonError "Server error")),
            set_blobs (λ b, b ∖ {[p]}) (log_call (Destroy (Some p)) w))
    else (Returned (Response 500 (JsonError "Server error")),
          log_call (Destroy (Some p)) w).
Proof.
  intros Hd Hp. unfold put_memory, try_catch.
  step (Memory_findById_ok o w). rewrite Hd. cbn [fmap option_fmap option_map].
  change (imagePublicId (assign_fields mg b d)) with (imagePublicId d).
  rewrite Hp. fold (with_image f (assign_fields mg b d)).
  destruct (destroy_reachable e) eqn:He.
  - destruct (destroy_reachable_returns e p w He) as (result & Hrun & _).
    assert (Hrun' :
      (_ ← cloudinary.destroy e (Some p);
       mret (with_image f (assign_fields mg b d))) w
      = (Returned (with_image f (assign_fields mg b d)),
         set_blobs (λ b, b ∖ {[p]}) (log_call (Destroy (Some p)) w)))
      by (by step Hrun).
    step Hrun'.
    destruct (Memory.validate (with_image f (assign_fields mg b d))) eqn:Hv.
    + by step (Memory_save_valid o _
        (set_blobs (λ b, b ∖ {[p]}) (log_call (Destroy (Some p)) w)) Hv
        (mk_is_Some _ _ Hd)).
    + by step (Memory_save_invalid o _
        (set_blobs (λ b, b ∖ {[p]}) (log_call (Destroy (Some p)) w)) Hv).
  - assert (Hrun' :
      (_ ← cloudinary.destroy e (Some p);
       mret (with_image f (assign_fields mg b d))) w
      = (Thrown MediaError, log_call (Destroy (Some p)) w))
      by (by step (destroy_unreachable e p w He)).
    by step Hrun'.
Qed.

(** C2, as stated, fails twice over.  The store call is made by the upload
    middleware, before the handler and so before the delete call; and when
    the delete call rejects, the handler answers 500 and the document keeps
    its old image. *)
Lemma put_memory_store_precedes_destroy :
  let req := PUT_memory (IdOk 0%N) no_fields (Some "jpg") in
  let done := serve sample_mongoose second_upload req one_memory in
  let failed := serve sample_mongoose host_down req one_memory in
  memories one_memory !! 0%N = Some sample_memory
  ∧ status done.1 = 200
  ∧ media_log done.2
    = media_log one_memory ++ [Upload "jpg"; Destroy (Some "memories/a1")]
  ∧ failed.1 = Response 500 (JsonError "Server error")
  ∧ memories failed.2 !! 0%N = Some sample_memory.
Proof. vm_compute. done. Qed.

(** C2, amended: an update of an existing memory whose image part the media
    host accepts makes exactly one store call and exactly one delete call
    for the old blob, the store call first.  When the delete call returns
    and the document validates, the update completes with [imageUrl] and
    [imagePublicId] replaced by what the host handed out; when the delete
    call rejects, the answer is 500 and the collection is as before. *)
Theorem put_memory_with_image mg e w o d p b format url public_id :
  memories w !! o = Some d → imagePublicId d = Some p →
  format ∈ allowed_formats → upload_reply e = Some (url, public_id) →
  let d' := with_image (File url public_id) (assign_fields mg b d) in
  let res := serve mg e (PUT_memory (IdOk o) b (Some format)) w in
  media_log res.2 = media_log w ++ [Upload format; Destroy (Some p)]
  ∧ (destroy_reachable e = true → Memory.validate d' = true →
       res.1 = Response 200 (JsonMemory (o, d'))
       ∧ memories res.2 = <[o := d']> (memories w)
       ∧ imageUrl d' = Some url ∧ imagePublicId d' = Some public_id)
  ∧ (destroy_reachable e = false →
       res.1 = Response 500 (JsonError "Server error")
       ∧ memories res.2 = memories w).
Proof.
  intros Hd Hp Hf He d' res. subst res. unfold serve, app.
  step (upload_single_accepted e format url public_id w Hf He).
  rewrite (put_memory_image mg e
             (set_blobs (λ b, {[public_id]} ∪ b) (log_call (Upload format) w))
             o d p b (File url public_id) Hd Hp).
  fold d'. destruct (destroy_reachable e), (Memory.validate d'); cbn.
  all: rewrite <- (assoc_L (++)); repeat split; done.
Qed.

Lemma put_memory_with_image_witness :
  let d' := with_image (File "https://res.example/memories/b2.jpg" "memories/b2")
              (assign_fields sample_mongoose no_fields sample_memory) in
  let res := serve sample_mongoose second_upload
               (PUT_memory (IdOk 0%N) no_fields (Some "jpg")) one_memory in
  media_log res.2
  = media_log one_memory ++ [Upload "jpg"; Destroy (Some "memories/a1")]
  ∧ (destroy_reachable second_upload = true → Memory.validate d' = true →
       res.1 = Response 200 (JsonMemory (0%N, d'))
       ∧ memories res.2 = <[0%N := d']> (memories one_memory)
       ∧ imageUrl d' = Some "https://res.example/memories/b2.jpg"
       ∧ imagePublicId d' = Some "memories/b2")
  ∧ (destroy_reachable second_upload = false →
       res.1 = Response 500 (JsonError "Server error")
       ∧ memories res.2 = memories one_memory).
Proof.
  apply (put_memory_with_image sample_mongoose second_upload one_memory 0%N
           sample_memory "memories/a1" no_fields "jpg"
           "https://res.example/memories/b2.jpg" "memories/b2").
  - reflexivity.
  - reflexivity.
  - apply (bool_decide_unpack _). vm_compute. exact I.
  - reflexivity.
Defined.

Lemma put_memory_malformed mg e raw b req_file w :
  put_memory mg e (IdMalformed raw) b req_file w
  = (Returned (Response 500 (JsonError "Server error")), w).
Proof. done. Qed.

(** C10, as stated, fails when the upload is refused: the store call is
    made, but the answer is the 500 error page, not 404, and no blob is
    left at the host. *)
Lemma put_memory_unknown_id_upload_refused :
  let res := serve sample_mongoose sample_env
               (PUT_memory (IdOk 7%N) sample_fields (Some webp)) empty_world in
  memories empty_world !! 7%N = None
  ∧ res.1 = Response 500 ErrorPage
  ∧ media_log res.2 = [Upload webp]
  ∧ blobs res.2 = ∅.
Proof. cbv zeta. repeat split; by vm_compute. Qed.

(** C10, amended: an update of a memory that carries an image and names an
    id that resolves to no document still makes one store call, by the
    upload middleware, before the id is looked at, and writes no document.
    When the host accepts the image the answer is 404 (500 when the id is
    no ObjectId) and the new blob stays at the host, with no document
    referring to it if none did before; when the upload is refused the
    answer is the 500 error page and no blob is stored. *)
Theorem put_memory_unknown_id_orphans_blob mg e w id b format :
  absent id w →
  let res := serve mg e (PUT_memory id b (Some format)) w in
  media_log res.2 = media_log w ++ [Upload format]
  ∧ memories res.2 = memories w
  ∧ (∀ url public_id,
       format ∈ allowed_formats → upload_reply e = Some (url, public_id) →
       res.1 = match id with
               | IdOk _ => Response 404 (JsonError "Memory not found")
               | IdMalformed _ => Response 500 (JsonError "Server error")
               end
       ∧ public_id ∈ blobs res.2
       ∧ (¬ referenced w public_id → orphaned res.2 public_id))
  ∧ (format ∉ allowed_formats ∨ upload_reply e = None →
       res.1 = Response 500 ErrorPage ∧ blobs res.2 = blobs w).
Proof.
  intros Hd res. subst res.
  assert (Hrun : ∀ req_file w1, memories w1 = memories w →
            put_memory mg e id b req_file w1
            = (Returned match id with
                        | IdOk _ => Response 404 (JsonError "Memory not found")
                        | IdMalformed _ => Response 500 (JsonError "Server error")
                        end, w1)).
  { intros req_file w1 Hm. destruct id as [o|raw]; [|done].
    apply put_memory_not_found. by rewrite Hm. }
  destruct (upload_cases e format) as [(Hf & url & public_id & He)|Hr].
  - unfold serve, app.
    step (upload_single_accepted e format url public_id w Hf He).
    rewrite Hrun by done. cbn.
    split; [done|]. split; [done|]. split.
    + intros url' public_id' _ He'. rewrite He in He'. simplify_eq.
      assert (public_id' ∈ {[public_id']} ∪ blobs w)
        by (by apply elem_of_union_l, elem_of_singleton).
      split; [done|]. split; [done|]. intros Hnr. by split.
    + intros [Hr|Hr]; [done|congruence].
  - unfold serve, app. step (upload_single_refused e format w Hr). cbn.
    split; [done|]. split; [done|]. split; [|done].
    intros url public_id Hf He. destruct Hr as [Hr|Hr]; [done|congruence].
Qed.

Lemma put_memory_unknown_id_orphans_blob_witness :
  let res := serve sample_mongoose sample_env
               (PUT_memory (IdOk 7%N) sample_fields (Some "png")) empty_world in
  res.1 = Response 404 (JsonError "Memory not found")
  ∧ media_log res.2 = [Upload "png"]
  ∧ orphaned res.2 "memories/a1".
Proof.
  destruct (put_memory_unknown_id_orphans_blob sample_mongoose sample_env
              empty_world (IdOk 7%N) sample_fields "png" eq_refl)
    as (Hlog & _ & Hup & _).
  destruct (Hup "https://res.example/memories/a1.png" "memories/a1")
    as (Hres & _ & Horphan).
  - apply (bool_decide_unpack _). vm_compute. exact I.
  - reflexivity.
  - split; [exact Hres|]. split; [exact Hlog|]. apply Horphan.
    intros (o & d & Hd & _). discriminate Hd.
Defined.

(** Assigning a path its own value leaves a stored document as it is. *)
Lemma assign_description_only mg d v :
  title d = trim <$> title d →
  assign_fields mg (MemoryFields None None (Some v) None) d
  = Memory.set_description (js_or Some (Some v) (description d)) d.
Proof.
  intros Ht. unfold assign_fields, Memory.set_special, Memory.set_description,
    Memory.set_date, Memory.set_title. cbn. by rewrite <- Ht.
Qed.

Lemma set_description_valid d v :
  Memory.validate d = true →
  Memory.validate (Memory.set_description (js_or Some (Some v) (description d)) d)
  = true.
Proof.
  unfold Memory.validate, Memory.set_description, js_or. cbn.
  destruct (truthy v) eqn:Hv; [|done].
  intros H. repeat (apply andb_prop in H as [H ?]).
  repeat (apply andb_true_intro; split); done.
Qed.

(** C5: an update of a stored memory whose body gives [description] alone,
    with no image, is answered 200 and writes back the document with
    [title], [date], [special], [imageUrl], [imagePublicId] (and
    [createdAt]) as they were; [description] is the given one, when it is
    not the empty string. *)
Theorem put_memory_description_only mg e w o d v :
  memories w !! o = Some d → stored d →
  let d' := Memory.set_description (js_or Some (Some v) (description d)) d in
  serve mg e (PUT_memory (IdOk o) (MemoryFields None None (Some v) None) None) w
  = (Response 200 (JsonMemory (o, d')), set_memories (insert o d') w)
  ∧ title d' = title d ∧ date d' = date d ∧ special d' = special d
  ∧ imageUrl d' = imageUrl d ∧ imagePublicId d' = imagePublicId d
  ∧ createdAt d' = createdAt d
  ∧ (truthy v = true → description d' = Some v).
Proof.
  intros Hd [Hv Ht] d'. split.
  - unfold serve, app. step (upload_single_none e w).
    rewrite (put_memory_plain mg e w o d _ Hd).
    rewrite (assign_description_only mg d v Ht). fold d'.
    unfold d'. by rewrite set_description_valid.
  - repeat split. intros Hvt. unfold d', js_or. cbn. by rewrite Hvt.
Qed.

Lemma put_memory_description_only_witness :
  let d' := Memory.set_description (Some "Sunset walk") sample_memory in
  serve sample_mongoose sample_env
    (PUT_memory (IdOk 0%N) (MemoryFields None None (Some "Sunset walk") None) None)
    one_memory
  = (Response 200 (JsonMemory (0%N, d')), set_memories (insert 0%N d') one_memory)
  ∧ title d' = title sample_memory ∧ date d' = date sample_memory
  ∧ special d' = special sample_memory
  ∧ imageUrl d' = imageUrl sample_memory
  ∧ imagePublicId d' = imagePublicId sample_memory
  ∧ createdAt d' = createdAt sample_memory
  ∧ (truthy "Sunset walk" = true → description d' = Some "Sunset walk").
Proof.
  apply (put_memory_description_only sample_mongoose sample_env one_memory
           0%N sample_memory "Sunset walk").
  - reflexivity.
  - split; reflexivity.
Defined.

(** ** What a request can do to the Memory collection *)

Lemma post_memories_file mg e w b f :
  post_memories mg e b (Some f) w
  = if Memory.validate (new_memory mg e b f)
    then (Returned (Response 201 (JsonMemory (new_id w, new_memory mg e b f))),
          set_issued (λ ids, {[new_id w]} ∪ ids)
            (set_memories (insert (new_id w) (new_memory mg e b f)) w))
    else (Returned (Response 500 (JsonError "Server error")), w).
Proof.
  unfold post_memories, try_catch.
  assert (Hnew : Memory.new mg e (b_title b) (b_date b) (b_description b)
                   (b_special b) (Some (path f)) (Some (filename f)) w
                 = (Returned (new_id w, new_memory mg e b f), w))
    by done.
  step Hnew. destruct (Memory.validate (new_memory mg e b f)) eqn:Hv.
  - by step (Memory_save_new (new_id w) _ w Hv (proj1 (new_id_fresh w))).
  - by step (Memory_save_invalid (new_id w) _ w Hv).
Qed.

Lemma upload_single_outcome e image w :
  memories (upload_single e image w).2 = memories w
  ∧ groups (upload_single e image w).2 = groups w
  ∧ ∀ f, (upload_single e image w).1 = Returned (Some f) →
         ∃ format, image = Some format ∧ format ∈ allowed_formats
                   ∧ upload_reply e = Some (path f, filename f).
Proof.
  destruct image as [format|]; [|by rewrite upload_single_none].
  destruct (upload_cases e format) as [(Hf & url & public_id & He)|Hr].
  - rewrite (upload_single_accepted e format url public_id w Hf He). cbn.
    split; [done|]. split; [done|]. intros f [= <-]. eauto.
  - rewrite (upload_single_refused e format w Hr). cbn. done.
Qed.

Lemma upload_single_new_id e image w :
  new_id (upload_single e image w).2 = new_id w.
Proof.
  destruct image as [format|]; [|done].
  destruct (upload_cases e format) as [(Hf & url & public_id & He)|Hr].
  - by rewrite (upload_single_accepted e format url public_id w Hf He).
  - by rewrite (upload_single_refused e format w Hr).
Qed.

Lemma upload_single_some e format w w1 :
  upload_single e (Some format) w ≠ (Returned None, w1).
Proof.
  destruct (upload_cases e format) as [(Hf & url & public_id & He)|Hr].
  - by rewrite (upload_single_accepted e format url public_id w Hf He).
  - by rewrite (upload_single_refused e format w Hr).
Qed.

Lemma title_assigned_trimmed mg b d :
  title (assign_fields mg b d) = trim <$> title (assign_fields mg b d).
Proof.
  cbn. destruct (js_or Some (b_title b) (title d)) as [t|]; [|done].
  cbn. by rewrite trim_idemp.
Qed.

Lemma title_new_trimmed mg e b f :
  title (new_memory mg e b f) = trim <$> title (new_memory mg e b f).
Proof. cbn. destruct (b_title b) as [t|]; [|done]. cbn. by rewrite trim_idemp. Qed.

(** The update handler either leaves the collection alone and answers with
    an error, or writes back one validated document and answers 200. *)
Lemma put_memory_outcome mg e id b req_file w :
  (memories (put_memory mg e id b req_file w).2 = memories w
   ∧ ∃ s msg, (put_memory mg e id b req_file w).1
              = Returned (Response s (JsonError msg)))
  ∨ (∃ o d,
       let d' := match req_file with
                 | Some f => with_image f (assign_fields mg b d)
                 | None => assign_fields mg b d
                 end in
       id = IdOk o ∧ memories w !! o = Some d
       ∧ Memory.validate d' = true
       ∧ memories (put_memory mg e id b req_file w).2 = <[o := d']> (memories w)
       ∧ (put_memory mg e id b req_file w).1
         = Returned (Response 200 (JsonMemory (o, d')))).
Proof.
  destruct id as [o|raw]; [|left; split; [done|by eexists _, _]].
  destruct (memories w !! o) as [d|] eqn:Hd;
    [|rewrite put_memory_not_found by done; left; split; [done|by eexists _, _]].
  destruct req_file as [f|].
  - destruct (imagePublicId d) as [p|] eqn:Hp.
    + rewrite (put_memory_image mg e w o d p b f Hd Hp).
      destruct (destroy_reachable e);
        [|left; split; [done|by eexists _, _]].
      destruct (Memory.validate _) eqn:Hv;
        [|left; split; [done|by eexists _, _]].
      right. by exists o, d.
    + left. unfold put_memory, try_catch.
      step (Memory_findById_ok o w). rewrite Hd.
      cbn [fmap option_fmap option_map].
      change (imagePublicId (assign_fields mg b d)) with (imagePublicId d).
      rewrite Hp. split; [done|by eexists _, _].
  - rewrite (put_memory_plain mg e w o d b Hd).
    destruct (Memory.validate _) eqn:Hv;
      [|left; split; [done|by eexists _, _]].
    right. by exists o, d.
Qed.

Lemma delete_memory_outcome e id w :
  memories (delete_memory e id w).2 = memories w
  ∨ ∃ o, memories (delete_memory e id w).2 = delete o (memories w).
Proof.
  destruct id as [o|raw]; [|by left].
  destruct (memories w !! o) as [d|] eqn:Hd;
    [|rewrite delete_memory_not_found by done; by left].
  unfold delete_memory, try_catch.
  step (Memory_findById_ok o w). rewrite Hd. cbn [fmap option_fmap option_map].
  destruct (imagePublicId d) as [p|]; [|by left].
  destruct (destroy_reachable e) eqn:He.
  - destruct (destroy_reachable_returns e p w He) as (result & Hrun & _).
    step Hrun. right. by exists o.
  - step (destroy_unreachable e p w He). by left.
Qed.

(** The group handlers, run. *)
Lemma post_groups_run e b w :
  post_groups e b w
  = if Group.validate (new_group e b)
    then (Returned (Response 201 (JsonGroup (new_id w, new_group e b))),
          set_issued (λ ids, {[new_id w]} ∪ ids)
            (set_groups (insert (new_id w) (new_group e b)) w))
    else (Returned (Response 500 (JsonError "Server error")), w).
Proof.
  unfold post_groups, try_catch.
  assert (Hnew : Group.new e (f_name b) (f_description b)
                   (default [] (f_memoryIds b)) w
                 = (Returned (new_id w, new_group e b), w)) by done.
  step Hnew. destruct (Group.validate (new_group e b)) eqn:Hv.
  - by step (Group_save_new (new_id w) _ w Hv
               (proj1 (proj2 (new_id_fresh w)))).
  - unfold Group.save. cbn [fst snd]. by rewrite Hv.
Qed.

Lemma put_group_found mg w o g b :
  groups w !! o = Some g →
  put_group mg (IdOk o) b w
  = (Returned (Response 200 (JsonGroup (o, Group.apply_update mg b g))),
     set_groups (insert o (Group.apply_update mg b g)) w).
Proof.
  intros Hg. unfold put_group, try_catch, Group.findByIdAndUpdate.
  unfold mbind, M_bind, get_world, modify_world, mret, M_ret. rewrite Hg.
  by destruct b.
Qed.

Lemma delete_group_found w o g :
  groups w !! o = Some g →
  delete_group (IdOk o) w
  = (Returned (Response 200 (JsonMessage "Group deleted successfully")),
     set_groups (delete o) w).
Proof.
  intros Hg. unfold delete_group, try_catch, Group.findByIdAndDelete.
  unfold mbind, M_bind, get_world, modify_world, mret, M_ret. by rewrite Hg.
Qed.

Lemma group_routes_keep_memories mg e req w :
  match req with
  | GET_groups | POST_groups _ | PUT_group _ _ | DELETE_group _ | GET_memories =>
      memories (serve mg e req w).2 = memories w
  | _ => True
  end.
Proof.
  destruct req as [|b|id b|id| |b image|id|id b image]; try done.
  - unfold serve, app. rewrite post_groups_run.
    by destruct (Group.validate (new_group e b)).
  - destruct id as [o|raw]; [|done]. unfold serve, app.
    destruct (groups w !! o) as [g|] eqn:Hg.
    + by rewrite (put_group_found mg w o g b Hg).
    + by rewrite put_group_not_found.
  - destruct id as [o|raw]; [|done]. unfold serve, app.
    destruct (groups w !! o) as [g|] eqn:Hg.
    + by rewrite (delete_group_found w o g Hg).
    + by rewrite delete_group_not_found.
Qed.

(** Every request leaves the Memory collection as it was, or deletes one
    document, or writes one validated document whose image pair is the one
    it had or the one the host handed out for this request. *)
Lemma serve_memories mg e req w :
  memories (serve mg e req w).2 = memories w
  ∨ (∃ o, memories (serve mg e req w).2 = delete o (memories w))
  ∨ (∃ o d', memories (serve mg e req w).2 = <[o := d']> (memories w)
             ∧ stored d'
             ∧ (pair_kept w o d' ∨ pair_from_host e (image_part req) d')).
Proof.
  destruct req as [|b|id b|id| |b image|id|id b image].
  - left. apply (group_routes_keep_memories mg e GET_groups w).
  - left. apply (group_routes_keep_memories mg e (POST_groups b) w).
  - left. apply (group_routes_keep_memories mg e (PUT_group id b) w).
  - left. apply (group_routes_keep_memories mg e (DELETE_group id) w).
  - left. apply (group_routes_keep_memories mg e GET_memories w).
  - (* POST /api/memories *)
    unfold serve, app.
    destruct (upload_single_outcome e image w) as (Hm & _ & Hf).
    destruct (upload_single e image w) as [[[f|]|err] w1] eqn:Hu; cbn in Hm, Hf.
    + step Hu. rewrite post_memories_file.
      destruct (Memory.validate (new_memory mg e b f)) eqn:Hv; [|by left].
      right; right. exists (new_id w1), (new_memory mg e b f).
      cbn. rewrite Hm. split; [done|]. split; [split; [done|]|].
      * apply title_new_trimmed.
      * right. destruct (Hf f eq_refl) as (format & -> & Hfmt & He).
        by exists format, (path f), (filename f).
    + step Hu. by left.
    + step Hu. by left.
  - (* DELETE /api/memories/:id *)
    unfold serve, app.
    destruct (delete_memory_outcome e id w) as [H|H];
      destruct (delete_memory e id w) as [[r|err] w1]; cbn in *; auto.
  - (* PUT /api/memories/:id *)
    unfold serve, app.
    destruct (upload_single_outcome e image w) as (Hm & _ & Hf).
    destruct (upload_single e image w) as [[req_file|err] w1] eqn:Hu;
      cbn in Hm, Hf; [|step Hu; by left].
    step Hu.
    destruct (put_memory_outcome mg e id b req_file w1)
      as [[Hsame _]|(o & d & _ & Hd & Hv & Hw & _)].
    + left. rewrite <- Hm.
      by destruct (put_memory mg e id b req_file w1) as [[r|err] w2].
    + right; right. rewrite Hm in Hd, Hw. eexists o, _. split.
      { by destruct (put_memory mg e id b req_file w1) as [[r|err] w2]. }
      split; [split; [done|]|].
      * destruct req_file; apply title_assigned_trimmed.
      * destruct req_file as [f|].
        -- right. destruct (Hf f eq_refl) as (format & -> & Hfmt & He).
           by exists format, (path f), (filename f).
        -- left. by exists d.
Qed.

(** ** The collection holds validated documents only *)

Lemma serve_keeps_stored mg e req w :
  all_stored w → all_stored (serve mg e req w).2.
Proof.
  unfold all_stored. intros Hw.
  destruct (serve_memories mg e req w)
    as [->|[(o & ->)|(o & d' & -> & Hd' & _)]].
  - done.
  - by apply map_Forall_delete.
  - by apply map_Forall_insert_2.
Qed.

Lemma serve_all_keeps_stored mg reqs w :
  all_stored w → all_stored (serve_all mg reqs w).
Proof.
  revert w. induction reqs as [|[e req] reqs IH]; intros w Hw; [done|].
  cbn. by apply IH, serve_keeps_stored.
Qed.

Lemma reachable_stored mg reqs : all_stored (serve_all mg reqs empty_world).
Proof. apply serve_all_keeps_stored, map_Forall_empty. Qed.

(** ** The image pair *)

Lemma post_memories_created mg e b image w o d :
  (serve mg e (POST_memories b image) w).1 = Response 201 (JsonMemory (o, d)) →
  memories (serve mg e (POST_memories b image) w).2 !! o = Some d
  ∧ pair_from_host e image d.
Proof.
  unfold serve, app.
  destruct (upload_single_outcome e image w) as (Hm & _ & Hf).
  destruct (upload_single e image w) as [[[f|]|err] w1] eqn:Hu; cbn in Hm, Hf;
    step Hu; [|done..].
  rewrite post_memories_file.
  destruct (Memory.validate (new_memory mg e b f)) eqn:Hv; [|done].
  cbn. intros [= <- <-]. split; [apply lookup_insert_eq|].
  destruct (Hf f eq_refl) as (format & -> & Hfmt & He).
  by exists format, (path f), (filename f).
Qed.

Lemma put_memory_image_updated mg e id b format w o d :
  (serve mg e (PUT_memory id b (Some format)) w).1
  = Response 200 (JsonMemory (o, d)) →
  memories (serve mg e (PUT_memory id b (Some format)) w).2 !! o = Some d
  ∧ pair_from_host e (Some format) d.
Proof.
  unfold serve, app.
  destruct (upload_single_outcome e (Some format) w) as (Hm & _ & Hf).
  destruct (upload_single e (Some format) w) as [[req_file|err] w1] eqn:Hu;
    cbn in Hm, Hf; step Hu; [|done].
  destruct req_file as [f|]; [|by destruct (upload_single_some e format w w1)].
  destruct (put_memory_outcome mg e id b (Some f) w1)
    as [[_ (s & msg & Hr)]|(o' & d0 & _ & Hd & Hv & Hw & Hr)].
  - destruct (put_memory mg e id b (Some f) w1) as [[r|err] w2];
      cbn in Hr |- *; [|done]. by intros ->; simplify_eq.
  - destruct (put_memory mg e id b (Some f) w1) as [[r|err] w2];
      cbn in Hr, Hw |- *; [|done].
    intros ->. simplify_eq. rewrite Hw. split; [apply lookup_insert_eq|].
    destruct (Hf f eq_refl) as (format' & [= <-] & Hfmt & He).
    by exists format, (path f), (filename f).
Qed.

(** C9: whatever the request, a document found in the Memory collection
    afterwards has the image pair it had before the request, both fields
    untouched, or has both fields set to what the media host handed out
    for the image part of that request; and the document a create answers
    201 with, or an update with an image answers 200 with, is in the
    collection with the pair the host handed out. *)
Theorem image_pair_written_together mg e w :
  (∀ req o d',
     memories (serve mg e req w).2 !! o = Some d' →
     pair_kept w o d' ∨ pair_from_host e (image_part req) d')
  ∧ (∀ b image o d,
       (serve mg e (POST_memories b image) w).1
       = Response 201 (JsonMemory (o, d)) →
       memories (serve mg e (POST_memories b image) w).2 !! o = Some d
       ∧ pair_from_host e image d)
  ∧ (∀ id b format o d,
       (serve mg e (PUT_memory id b (Some format)) w).1
       = Response 200 (JsonMemory (o, d)) →
       memories (serve mg e (PUT_memory id b (Some format)) w).2 !! o = Some d
       ∧ pair_from_host e (Some format) d).
Proof.
  split; [|split].
  - intros req o d'.
    destruct (serve_memories mg e req w)
      as [->|[(o0 & ->)|(o0 & d0 & -> & _ & Hpair)]].
    + intros Hd. left. by exists d'.
    + intros [_ Hd]%lookup_delete_Some. left. by exists d'.
    + intros [[<- <-]|[_ Hd]]%lookup_insert_Some; [done|]. left. by exists d'.
  - intros b image o d. apply post_memories_created.
  - intros id b format o d. apply put_memory_image_updated.
Qed.

Lemma image_pair_written_together_witness :
  memories one_memory !! 0%N = Some sample_memory
  ∧ pair_from_host sample_env (Some "png") sample_memory.
Proof.
  apply (proj1 (proj2 (image_pair_written_together sample_mongoose sample_env
                         empty_world)) sample_fields (Some "png") 0%N sample_memory).
  vm_compute. reflexivity.
Defined.

(** ** Listing the memories *)

Global Instance newer_first_trans : Transitive Memory.newer_first.
Proof. intros x y z. unfold Memory.newer_first. lia. Qed.

Global Instance newer_first_total : Total Memory.newer_first.
Proof. intros x y. unfold Memory.newer_first. lia. Qed.

(** A list in descending order without two equal keys is in strictly
    descending order. *)
Lemma newer_first_strict (l : list (ObjectId * memory_doc)) :
  StronglySorted Memory.newer_first l →
  NoDup ((λ x, createdAt x.2) <$> l) →
  StronglySorted strictly_newer_first l.
Proof.
  induction 1 as [|x l Hl IH Hx]; intros Hnd; [constructor|].
  rewrite fmap_cons in Hnd. apply NoDup_cons in Hnd as [Hnotin Hnd].
  constructor; [by apply IH|].
  apply Forall_forall. intros y Hy.
  pose proof (proj1 (Forall_forall _ _) Hx y Hy) as Hle.
  unfold Memory.newer_first in Hle. unfold strictly_newer_first.
  destruct (decide (createdAt y.2 = createdAt x.2)) as [Heq|Hne]; [|lia].
  destruct Hnotin. rewrite <- Heq.
  by apply (list_elem_of_fmap_2 (λ x, createdAt x.2)).
Qed.

(** C6, as stated, fails: two memories created within the same millisecond
    carry the same [createdAt], and no listing of the two is in strictly
    descending order. *)
Lemma get_memories_equal_createdAt :
  let second := Memory.set_imagePublicId (Some "memories/b2")
                  (Memory.set_imageUrl (Some "https://res.example/memories/b2.jpg")
                     sample_memory) in
  (serve sample_mongoose sample_env GET_memories two_at_once).1
  = Response 200 (JsonMemories [(1%N, second); (0%N, sample_memory)])
  ∧ ¬ strictly_newer_first (1%N, second) (0%N, sample_memory)
  ∧ ¬ strictly_newer_first (0%N, sample_memory) (1%N, second).
Proof.
  cbv zeta. split; [by vm_compute|].
  unfold strictly_newer_first. cbn. lia.
Qed.

(** C6, amended: the listing is answered 200 with every document of the
    Memory collection, each once (no filter, no page), in descending order
    of [createdAt]: no document comes before a newer one; the order is
    strictly descending whenever no two documents share a [createdAt]. *)
Theorem get_memories_sorted mg e w :
  ∃ l,
    serve mg e GET_memories w = (Response 200 (JsonMemories l), w)
    ∧ l ≡ₚ map_to_list (memories w)
    ∧ (∀ o d, (o, d) ∈ l ↔ memories w !! o = Some d)
    ∧ StronglySorted Memory.newer_first l
    ∧ (NoDup ((λ x, createdAt x.2) <$> l) →
         StronglySorted strictly_newer_first l).
Proof.
  exists (merge_sort Memory.newer_first (map_to_list (memories w))).
  split; [done|].
  assert (Hperm : merge_sort Memory.newer_first (map_to_list (memories w))
                  ≡ₚ map_to_list (memories w)) by apply merge_sort_Permutation.
  assert (Hsorted : StronglySorted Memory.newer_first
                      (merge_sort Memory.newer_first (map_to_list (memories w))))
    by apply (StronglySorted_merge_sort _).
  split; [done|]. split; [|split; [done|]].
  - intros o d. rewrite Hperm. apply elem_of_map_to_list.
  - by apply newer_first_strict.
Qed.

Lemma get_memories_sorted_witness :
  ∃ l,
    serve sample_mongoose sample_env GET_memories two_apart
    = (Response 200 (JsonMemories l), two_apart)
    ∧ List.length l = 2%nat
    ∧ StronglySorted strictly_newer_first l.
Proof.
  destruct (get_memories_sorted sample_mongoose sample_env two_apart)
    as (l & Hrun & Hperm & _ & _ & Hstrict).
  exists l. split; [exact Hrun|]. split.
  - rewrite Hperm. vm_compute. reflexivity.
  - apply Hstrict. rewrite Hperm.
    apply (bool_decide_unpack _). vm_compute. exact I.
Defined.

(** ** Groups *)

(** C7: an update of an existing group hands the three keys of the body to
    [findByIdAndUpdate] as they are, the absent ones as [undefined].  A key
    that is given replaces the old value (the name after its [trim]), an
    empty list of memory ids included; a key that is absent keeps the old
    value only if Mongoose drops undefined keys, and is nulled
    otherwise. *)
Theorem put_group_replaces mg e w o g b :
  groups w !! o = Some g →
  let g' := Group.apply_update mg b g in
  serve mg e (PUT_group (IdOk o) b) w
  = (Response 200 (JsonGroup (o, g')), set_groups (insert o g') w)
  ∧ Group.findByIdAndUpdate mg (IdOk o) b w
    = (Returned (Some (o, g')), set_groups (insert o g') w)
  ∧ (∀ n, f_name b = Some n → name g' = Some (trim n))
  ∧ (∀ t, f_description b = Some t → g_description g' = Some t)
  ∧ (∀ ids, f_memoryIds b = Some ids → memoryIds g' = Some ids)
  ∧ (f_memoryIds b = Some [] → memoryIds g' = Some [])
  ∧ (f_name b = None →
       name g' = if omitUndefined mg then name g else None)
  ∧ (f_description b = None →
       g_description g' = if omitUndefined mg then g_description g else None)
  ∧ (f_memoryIds b = None →
       memoryIds g' = if omitUndefined mg then memoryIds g else None)
  ∧ g_createdAt g' = g_createdAt g.
Proof.
  intros Hg g'. split; [|split].
  - unfold serve, app. by rewrite (put_group_found mg w o g b Hg).
  - unfold Group.findByIdAndUpdate, mbind, M_bind, get_world, modify_world.
    by rewrite Hg.
  - unfold g', Group.apply_update, Group.write_path. cbn.
    repeat split; intros; by simplify_option_eq.
Qed.

Lemma put_group_replaces_witness :
  let b := GroupFields (Some "  Summer ") None (Some []) in
  let g' := Group.apply_update sample_mongoose b sample_group in
  serve sample_mongoose sample_env (PUT_group (IdOk 0%N) b) one_group
  = (Response 200 (JsonGroup (0%N, g')), set_groups (insert 0%N g') one_group)
  ∧ name g' = Some "Summer"
  ∧ g_description g' = None
  ∧ memoryIds g' = Some [].
Proof.
  destruct (put_group_replaces sample_mongoose sample_env one_group 0%N
              sample_group (GroupFields (Some "  Summer ") None (Some []))
              eq_refl)
    as (Hrun & _ & Hname & _ & _ & Hids & _ & Hdesc & _).
  split; [exact Hrun|]. split; [exact (Hname _ eq_refl)|].
  split; [exact (Hdesc eq_refl)|exact (Hids eq_refl)].
Defined.




(** * Further properties of the handlers *)

(** ** Rules for what a computation leaves alone *)

Section preserves.
Context (R : relation world) `{!Reflexive R, !Transitive R}.

Lemma preserves_ret {A} (a : A) : preserves R (mret a).
Proof. by intros w. Qed.

Lemma preserves_throw {A} (err : error) : preserves R (throw err : M A).
Proof. by intros w. Qed.

Lemma preserves_get_world : preserves R get_world.
Proof. by intros w. Qed.

Lemma preserves_modify_world (f : world → world) :
  (∀ w, R w (f w)) → preserves R (modify_world f).
Proof. intros Hf w. apply Hf. Qed.

Lemma preserves_bind {A B} (m : M A) (f : A → M B) :
  preserves R m → (∀ a, preserves R (f a)) → preserves R (m ≫= f).
Proof.
  intros Hm Hf w. specialize (Hm w). unfold mbind, M_bind.
  destruct (m w) as [[a|err] w1]; [|done].
  etrans; [exact Hm|apply Hf].
Qed.

Lemma preserves_try_catch {A} (body : M A) (handler : error → M A) :
  preserves R body → (∀ err, preserves R (handler err)) →
  preserves R (try_catch body handler).
Proof.
  intros Hb Hh w. specialize (Hb w). unfold try_catch.
  destruct (body w) as [[a|err] w1]; [done|].
  etrans; [exact Hb|apply Hh].
Qed.

End preserves.

Global Instance same_groups_refl : Reflexive same_groups.
Proof. by intros w. Qed.
Global Instance same_groups_trans : Transitive same_groups.
Proof. unfold same_groups. intros w1 w2 w3 H1 H2. congruence. Qed.
Global Instance same_memories_refl : Reflexive same_memories.
Proof. by intros w. Qed.
Global Instance same_memories_trans : Transitive same_memories.
Proof. unfold same_memories. intros w1 w2 w3 H1 H2. congruence. Qed.
Global Instance same_media_refl : Reflexive same_media.
Proof. by intros w. Qed.
Global Instance same_media_trans : Transitive same_media.
Proof. unfold same_media. intros w1 w2 w3 [??] [??]. split; congruence. Qed.

(** Walks down a handler with the rules above; what is left is one goal
    for each write to the world. *)
Ltac preserve :=
  repeat match goal with
    | |- ∀ _, _ => intro
    | |- preserves _ (try_catch _ _) => apply preserves_try_catch; [apply _..| |]
    | |- preserves _ (_ ≫= _) => apply preserves_bind; [apply _..| |]
    | |- preserves _ (mret _) => apply preserves_ret; apply _
    | |- preserves _ (throw _) => apply preserves_throw; apply _
    | |- preserves _ get_world => apply preserves_get_world; apply _
    | |- preserves _ (modify_world _) => apply preserves_modify_world
    | |- preserves _ (server_error _) => unfold server_error
    | |- preserves _ (match ?x with _ => _ end) => destruct x
    end.

(** Closes the goals [preserve] leaves: a write to the world seen through
    the relation, the write of [save] by its two cases. *)
Ltac kept :=
  first
    [ done
    | unfold Memory.write, Group.write;
      match goal with
      | |- context [bool_decide ?P] => by destruct (bool_decide P)
      end ].

Lemma serve_world mg e req w : (serve mg e req w).2 = (app mg e req w).2.
Proof. unfold serve. by destruct (app mg e req w) as [[r|err] w']. Qed.

Lemma memory_routes_preserve_groups mg e req :
  memory_route req = true → preserves same_groups (app mg e req).
Proof.
  destruct req; intros [=]; unfold app, get_memories, post_memories,
    delete_memory, put_memory, upload_single,
    Memory.find_sort_createdAt_desc, Memory.findById, Memory.findByIdAndDelete,
    Memory.new, Memory.save, cloudinary.upload, cloudinary.destroy;
    preserve; kept.
Qed.

Lemma other_routes_preserve mg e req :
  memory_route req = false ∨ req = GET_memories →
  preserves same_memories (app mg e req) ∧ preserves same_media (app mg e req).
Proof.
  intros [Hr| ->]; [destruct req; try discriminate Hr|];
    (split; unfold app, get_groups, post_groups, put_group, delete_group,
       get_memories, Memory.find_sort_createdAt_desc,
       Group.find, Group.new, Group.save, Group.findByIdAndUpdate,
       Group.findByIdAndDelete; preserve; kept).
Qed.

(** ** The two collections and the media host are kept apart *)

(** X1: no memory route writes to the Group collection: the listing, the
    create, the update and the delete of a memory leave every group as it
    was, so a group keeps the id of a memory that has been deleted. *)
Theorem memory_routes_leave_groups mg e req w :
  memory_route req = true →
  groups (serve mg e req w).2 = groups w.
Proof.
  intros Hr. rewrite serve_world.
  apply (memory_routes_preserve_groups mg e req Hr w).
Qed.

Lemma memory_routes_leave_groups_witness :
  let w' := (serve sample_mongoose sample_env (DELETE_memory (IdOk 0%N))
               memory_in_group).2 in
  groups w' = groups memory_in_group.
Proof.
  apply (memory_routes_leave_groups sample_mongoose sample_env
           (DELETE_memory (IdOk 0%N)) memory_in_group).
  reflexivity.
Defined.

(** X2: the group routes and the listing of the memories write to no
    Memory document and reach the media host not at all: the Memory
    collection, the blobs and the log of calls are as before. *)
Theorem other_routes_leave_memories_and_media mg e req w :
  memory_route req = false ∨ req = GET_memories →
  memories (serve mg e req w).2 = memories w
  ∧ blobs (serve mg e req w).2 = blobs w
  ∧ media_log (serve mg e req w).2 = media_log w.
Proof.
  intros Hr. rewrite serve_world.
  destruct (other_routes_preserve mg e req Hr) as [Hm Hmedia].
  split; [apply Hm|apply Hmedia].
Qed.

Lemma other_routes_leave_memories_and_media_witness :
  let w' := (serve sample_mongoose sample_env (DELETE_group (IdOk 0%N))
               memory_in_group).2 in
  memories w' = memories memory_in_group
  ∧ blobs w' = blobs memory_in_group
  ∧ media_log w' = media_log memory_in_group.
Proof.
  apply (other_routes_leave_memories_and_media sample_mongoose sample_env
           (DELETE_group (IdOk 0%N)) memory_in_group).
  left. reflexivity.
Defined.

(** ** The one document a request writes *)

Lemma delete_memory_outcome_at e o w :
  memories (delete_memory e (IdOk o) w).2 = memories w
  ∨ memories (delete_memory e (IdOk o) w).2 = delete o (memories w).
Proof.
  destruct (memories w !! o) as [d|] eqn:Hd;
    [|rewrite delete_memory_not_found by done; by left].
  unfold delete_memory, try_catch.
  step (Memory_findById_ok o w). rewrite Hd. cbn [fmap option_fmap option_map].
  destruct (imagePublicId d) as [p|]; [|by left].
  destruct (destroy_reachable e) eqn:He.
  - destruct (destroy_reachable_returns e p w He) as (result & Hrun & _).
    step Hrun. by right.
  - step (destroy_unreachable e p w He). by left.
Qed.

(** What a request does to the Memory collection, route by route. *)
Lemma serve_memories_precise mg e req w :
  memories (serve mg e req w).2 = memories w
  ∨ (∃ o, req = DELETE_memory (IdOk o)
          ∧ memories (serve mg e req w).2 = delete o (memories w))
  ∨ (∃ b image f, req = POST_memories b image
          ∧ memories (serve mg e req w).2
            = <[new_id w := new_memory mg e b f]> (memories w))
  ∨ (∃ o b image d d', req = PUT_memory (IdOk o) b image
          ∧ memories w !! o = Some d
          ∧ memories (serve mg e req w).2 = <[o := d']> (memories w)
          ∧ (d' = assign_fields mg b d
             ∨ ∃ f, d' = with_image f (assign_fields mg b d))).
Proof.
  destruct req as [|b|id b|id| |b image|id|id b image].
  - left. apply (group_routes_keep_memories mg e GET_groups w).
  - left. apply (group_routes_keep_memories mg e (POST_groups b) w).
  - left. apply (group_routes_keep_memories mg e (PUT_group id b) w).
  - left. apply (group_routes_keep_memories mg e (DELETE_group id) w).
  - left. apply (group_routes_keep_memories mg e GET_memories w).
  - unfold serve, app.
    destruct (upload_single_outcome e image w) as (Hm & _ & _).
    destruct (upload_single e image w) as [[[f|]|err] w1] eqn:Hu; cbn in Hm;
      step Hu; [|by left..].
    rewrite post_memories_file.
    destruct (Memory.validate (new_memory mg e b f)); [|by left].
    right; right; left. exists b, image, f. cbn.
    pose proof (upload_single_new_id e image w) as Hid. rewrite Hu in Hid.
    cbn in Hid. by rewrite Hm, Hid.
  - destruct id as [o|raw]; [|by left]. unfold serve, app.
    destruct (delete_memory_outcome_at e o w) as [H|H];
      destruct (delete_memory e (IdOk o) w) as [[r|err] w1]; cbn in *;
      [by left|by left|right; left; by exists o..].
  - unfold serve, app.
    destruct (upload_single_outcome e image w) as (Hm & _ & _).
    destruct (upload_single e image w) as [[req_file|err] w1] eqn:Hu;
      cbn in Hm; step Hu; [|by left].
    destruct (put_memory_outcome mg e id b req_file w1)
      as [[Hsame _]|(o & d & -> & Hd & _ & Hw & _)].
    + left. rewrite <- Hm.
      by destruct (put_memory mg e id b req_file w1) as [[r|err] w2].
    + right; right; right. rewrite Hm in Hd, Hw.
      eexists o, b, image, d, _. split; [done|]. split; [done|]. split.
      { by destruct (put_memory mg e (IdOk o) b req_file w1) as [[r|err] w2]. }
      destruct req_file as [f|]; [right; by exists f|by left].
Qed.

(** X3: a request writes at most one document of the Memory collection,
    the one its [:id] names or the fresh one it creates; every other
    document is afterwards what it was before. *)
Theorem other_memories_untouched mg e req w o :
  target req w ≠ Some o →
  memories (serve mg e req w).2 !! o = memories w !! o.
Proof.
  intros Ht.
  destruct (serve_memories_precise mg e req w)
    as [->|[(o0 & -> & ->)|[(b & image & f & -> & ->)
                           |(o0 & b & image & d & d' & -> & _ & -> & _)]]].
  - done.
  - apply lookup_delete_ne. cbn in Ht. congruence.
  - apply lookup_insert_ne. cbn in Ht. congruence.
  - apply lookup_insert_ne. cbn in Ht. congruence.
Qed.

Lemma other_memories_untouched_witness :
  memories (serve sample_mongoose second_upload
              (PUT_memory (IdOk 1%N) sample_fields (Some "jpg")) two_apart).2
    !! 0%N
  = memories two_apart !! 0%N.
Proof.
  apply (other_memories_untouched sample_mongoose second_upload
           (PUT_memory (IdOk 1%N) sample_fields (Some "jpg")) two_apart 0%N).
  discriminate.
Defined.

(** X4: no request changes the [createdAt] of a document that is in the
    Memory collection before and after it. *)
Theorem createdAt_never_changes mg e req w o d d' :
  memories w !! o = Some d →
  memories (serve mg e req w).2 !! o = Some d' →
  createdAt d' = createdAt d.
Proof.
  intros Hd.
  destruct (serve_memories_precise mg e req w)
    as [->|[(o0 & _ & ->)|[(b & image & f & _ & ->)
                          |(o0 & b & image & d0 & d1 & _ & Hd0 & -> & Hc)]]].
  - intros Hd'. congruence.
  - intros [_ Hd']%lookup_delete_Some. congruence.
  - intros [[<- _]|[_ Hd']]%lookup_insert_Some; [|congruence].
    pose proof (proj1 (new_id_fresh w)) as Hfresh. congruence.
  - intros [[<- <-]|[_ Hd']]%lookup_insert_Some; [|congruence].
    simplify_eq. by destruct Hc as [->|[f ->]].
Qed.

Lemma createdAt_never_changes_witness :
  createdAt (with_image (File "https://res.example/memories/b2.jpg" "memories/b2")
               (assign_fields sample_mongoose sample_fields sample_memory))
  = createdAt sample_memory.
Proof.
  apply (createdAt_never_changes sample_mongoose second_upload
           (PUT_memory (IdOk 0%N) sample_fields (Some "jpg")) one_memory 0%N).
  - reflexivity.
  - vm_compute. reflexivity.
Defined.

(** X5: an update of a memory neither adds a document to the collection
    nor removes one: the ids in it are the same before and after. *)
Theorem put_memory_keeps_ids mg e req w :
  is_update req = true →
  dom (memories (serve mg e req w).2) = dom (memories w).
Proof.
  intros Hu.
  destruct (serve_memories_precise mg e req w)
    as [->|[(o0 & -> & _)|[(b & image & f & -> & _)
                          |(o0 & b & image & d & d' & _ & Hd & -> & _)]]];
    try done.
  rewrite dom_insert_L. apply elem_of_dom_2 in Hd.
  apply leibniz_equiv. apply subseteq_union_1. by apply singleton_subseteq_l.
Qed.

Lemma put_memory_keeps_ids_witness :
  dom (memories (serve sample_mongoose second_upload
                   (PUT_memory (IdOk 0%N) sample_fields (Some "jpg"))
                   one_memory).2)
  = dom (memories one_memory).
Proof.
  apply (put_memory_keeps_ids sample_mongoose second_upload
           (PUT_memory (IdOk 0%N) sample_fields (Some "jpg")) one_memory).
  reflexivity.
Defined.

(** ** Creating a memory *)

Lemma validate_new_memory mg e b f :
  Memory.validate (new_memory mg e b f)
  = body_valid mg b && truthy (path f) && truthy (filename f).
Proof.
  unfold Memory.validate, body_valid, new_memory. cbn.
  by rewrite <- !andb_assoc.
Qed.

Lemma post_memories_accepted mg e w b format url public_id :
  format ∈ allowed_formats → upload_reply e = Some (url, public_id) →
  serve mg e (POST_memories b (Some format)) w
  = let w1 := set_blobs (λ b, {[public_id]} ∪ b) (log_call (Upload format) w) in
    let d := new_memory mg e b (File url public_id) in
    if Memory.validate d
    then (Response 201 (JsonMemory (new_id w, d)),
          set_issued (λ ids, {[new_id w]} ∪ ids)
            (set_memories (insert (new_id w) d) w1))
    else (Response 500 (JsonError "Server error"), w1).
Proof.
  intros Hf He. unfold serve, app.
  step (upload_single_accepted e format url public_id w Hf He).
  rewrite post_memories_file. cbn zeta.
  by destruct (Memory.validate (new_memory mg e b (File url public_id))).
Qed.

(** X6: a create whose image the host accepts and whose body passes the
    schema is answered 201 with the new document, stored under an id that
    was not in the collection and had not been issued before, so no
    document is overwritten and the collection grows by one; the document
    carries the trimmed title, the clock's [createdAt] and the url and
    public id of the host, and the one call made to the host is the
    upload. *)
Theorem post_memories_creates mg e w b format url public_id :
  format ∈ allowed_formats → upload_reply e = Some (url, public_id) →
  body_valid mg b = true → truthy url = true → truthy public_id = true →
  let o := new_id w in
  let d := new_memory mg e b (File url public_id) in
  let res := serve mg e (POST_memories b (Some format)) w in
  res.1 = Response 201 (JsonMemory (o, d))
  ∧ memories w !! o = None ∧ (o ∉ issued w)
  ∧ issued res.2 = {[o]} ∪ issued w
  ∧ memories res.2 = <[o := d]> (memories w)
  ∧ size (memories res.2) = S (size (memories w))
  ∧ title d = trim <$> b_title b ∧ description d = b_description b
  ∧ special d = b_special b ∧ createdAt d = now e
  ∧ imageUrl d = Some url ∧ imagePublicId d = Some public_id
  ∧ blobs res.2 = {[public_id]} ∪ blobs w
  ∧ media_log res.2 = media_log w ++ [Upload format].
Proof.
  intros Hf He Hb Hu Hp o d res. subst res.
  rewrite (post_memories_accepted mg e w b format url public_id Hf He).
  cbn zeta. rewrite validate_new_memory. cbn [path filename].
  rewrite Hb, Hu, Hp. cbn.
  destruct (new_id_fresh w) as (Hfresh & _ & Hissued).
  repeat split; try done. by apply map_size_insert_None.
Qed.

Lemma post_memories_creates_witness :
  let res := serve sample_mongoose sample_env
               (POST_memories sample_fields (Some "png")) empty_world in
  res.1 = Response 201 (JsonMemory (0%N, sample_memory))
  ∧ memories res.2 = {[0%N := sample_memory]}
  ∧ media_log res.2 = [Upload "png"].
Proof.
  destruct (post_memories_creates sample_mongoose sample_env empty_world
              sample_fields "png" "https://res.example/memories/a1.png"
              "memories/a1")
    as (Hres & _ & _ & _ & Hm & _ & _ & _ & _ & _ & _ & _ & _ & Hlog).
  - apply (bool_decide_unpack _). vm_compute. exact I.
  - reflexivity.
  - reflexivity.
  - reflexivity.
  - reflexivity.
  - split; [exact Hres|]. split; [exact Hm|exact Hlog].
Defined.

(** X7: a create whose image the host accepts but whose body does not pass
    the schema (a title that is missing or blank, a date that is missing or
    does not cast, no description) is answered 500 with nothing stored,
    after the upload: the blob stays at the host with no document
    referring to it. *)
Theorem post_memories_invalid_body_orphans mg e w b format url public_id :
  format ∈ allowed_formats → upload_reply e = Some (url, public_id) →
  body_valid mg b = false → ¬ referenced w public_id →
  let res := serve mg e (POST_memories b (Some format)) w in
  res.1 = Response 500 (JsonError "Server error")
  ∧ memories res.2 = memories w
  ∧ media_log res.2 = media_log w ++ [Upload format]
  ∧ orphaned res.2 public_id.
Proof.
  intros Hf He Hb Hnr res. subst res.
  rewrite (post_memories_accepted mg e w b format url public_id Hf He).
  cbn zeta. rewrite validate_new_memory, Hb. cbn.
  repeat split; try done. by apply elem_of_union_l, elem_of_singleton.
Qed.

Lemma post_memories_invalid_body_orphans_witness :
  let res := serve sample_mongoose sample_env
               (POST_memories blank_title (Some "png")) empty_world in
  res.1 = Response 500 (JsonError "Server error")
  ∧ memories res.2 = memories empty_world
  ∧ media_log res.2 = media_log empty_world ++ [Upload "png"]
  ∧ orphaned res.2 "memories/a1".
Proof.
  apply (post_memories_invalid_body_orphans sample_mongoose sample_env
           empty_world blank_title "png" "https://res.example/memories/a1.png"
           "memories/a1").
  - apply (bool_decide_unpack _). vm_compute. exact I.
  - reflexivity.
  - reflexivity.
  - intros (o & d & Hd & _). discriminate Hd.
Defined.

(** X8: when the image part is of a format the storage does not allow, or
    the host rejects the upload, the handler of the route is never run:
    create and update alike are answered 500 by the error page, the upload
    is the only call logged, and collections and blobs are as before. *)
Theorem upload_refused_skips_handler mg e w id b format :
  format ∉ allowed_formats ∨ upload_reply e = None →
  serve mg e (POST_memories b (Some format)) w
  = (Response 500 ErrorPage, log_call (Upload format) w)
  ∧ serve mg e (PUT_memory id b (Some format)) w
    = (Response 500 ErrorPage, log_call (Upload format) w).
Proof.
  intros Hr. unfold serve, app.
  by rewrite !(bind_thrown _ _ _ _ _ (upload_single_refused e format w Hr)).
Qed.

Lemma upload_refused_skips_handler_witness :
  serve sample_mongoose sample_env (POST_memories sample_fields (Some webp))
    one_memory
  = (Response 500 ErrorPage, log_call (Upload webp) one_memory)
  ∧ serve sample_mongoose sample_env
      (PUT_memory (IdOk 0%N) sample_fields (Some webp)) one_memory
    = (Response 500 ErrorPage, log_call (Upload webp) one_memory).
Proof.
  apply (upload_refused_skips_handler sample_mongoose sample_env one_memory
           (IdOk 0%N) sample_fields webp).
  left. apply (bool_decide_unpack _). vm_compute. exact I.
Defined.

(** ** Updating a memory: fields that are falsy, blank or do not cast *)


Lemma js_or_truthy {A} (inj : string → A) s x :
  truthy s = true → js_or inj (Some s) x = inj s.
Proof. cbn. by intros ->. Qed.

Lemma truthy_trim s : truthy (trim s) = true → truthy s = true.
Proof. by destruct s. Qed.




(** X10: an update with no image whose title is not empty but blank, or
    whose date is a string that does not cast to a Date, is answered 500
    and leaves the world as it was: the value fails the validation of
    [save] instead of being skipped. *)
Theorem put_memory_bad_field_rejected mg e w o d b :
  memories w !! o = Some d →
  (∃ t, b_title b = Some t ∧ truthy t = true ∧ trim t = "")
  ∨ (∃ s, b_date b = Some s ∧ truthy s = true ∧ Date_cast mg s = None) →
  serve mg e (PUT_memory (IdOk o) b None) w
  = (Response 500 (JsonError "Server error"), w).
Proof.
  intros Hd Hbad. unfold serve, app. step (upload_single_none e w).
  rewrite (put_memory_plain mg e w o d b Hd).
  assert (Hv : Memory.validate (assign_fields mg b d) = false); [|by rewrite Hv].
  unfold Memory.validate. cbn [title date assign_fields Memory.set_special
    Memory.set_description Memory.set_date Memory.set_title].
  destruct Hbad as [(t & -> & Ht & Hblank)|(s & -> & Hs & Hcast)].
  - rewrite js_or_truthy by done. cbn. by rewrite Hblank.
  - rewrite (js_or_truthy (Memory.cast_date mg)) by done.
    unfold Memory.cast_date. rewrite Hcast. by rewrite andb_false_r.
Qed.

Lemma put_memory_bad_field_rejected_witness :
  serve sample_mongoose sample_env (PUT_memory (IdOk 0%N) blank_title None)
    one_memory
  = (Response 500 (JsonError "Server error"), one_memory).
Proof.
  apply (put_memory_bad_field_rejected sample_mongoose sample_env one_memory
           0%N sample_memory blank_title).
  - reflexivity.
  - left. exists "   ". repeat split; reflexivity.
Defined.

(** X11: an update with no image whose four text fields are all given,
    with a title that is not blank and a date that casts, is answered 200
    and replaces exactly those four: the title trimmed, the date cast; the
    image pair and [createdAt] stay. *)
Theorem put_memory_replaces_given_fields mg e w o d t s z ds sp :
  memories w !! o = Some d →
  truthy (trim t) = true → truthy s = true → Date_cast mg s = Some z →
  truthy ds = true → truthy sp = true →
  required (imageUrl d) = true → required (imagePublicId d) = true →
  let d' := MemoryDoc (Some (trim t)) (DateOk z) (Some ds) (imageUrl d)
              (imagePublicId d) (createdAt d) (Some sp) in
  serve mg e
    (PUT_memory (IdOk o) (MemoryFields (Some t) (Some s) (Some ds) (Some sp)) None)
    w
  = (Response 200 (JsonMemory (o, d')), set_memories (insert o d') w).
Proof.
  intros Hd Ht Hs Hz Hds Hsp Hu Hp d'. unfold serve, app.
  step (upload_single_none e w).
  rewrite (put_memory_plain mg e w o d _ Hd).
  assert (Ha : assign_fields mg (MemoryFields (Some t) (Some s) (Some ds) (Some sp)) d
               = d').
  { unfold assign_fields, Memory.set_special, Memory.set_description,
      Memory.set_date, Memory.set_title. cbn [b_title b_date b_description
      b_special title date description imageUrl imagePublicId createdAt special].
    rewrite !js_or_truthy by (done || by apply truthy_trim).
    unfold Memory.cast_date. by rewrite Hz. }
  rewrite Ha. unfold Memory.validate, d'. cbn. by rewrite Ht, Hds, Hu, Hp.
Qed.

Lemma put_memory_replaces_given_fields_witness :
  let d' := MemoryDoc (Some "Hill walk") (DateOk 1715904000000) (Some "Windy")
              (imageUrl sample_memory) (imagePublicId sample_memory)
              (createdAt sample_memory) (Some "family") in
  serve sample_mongoose sample_env
    (PUT_memory (IdOk 0%N)
       (MemoryFields (Some " Hill walk ") (Some "2024-05-17") (Some "Windy")
          (Some "family")) None) one_memory
  = (Response 200 (JsonMemory (0%N, d')), set_memories (insert 0%N d') one_memory).
Proof.
  apply (put_memory_replaces_given_fields sample_mongoose sample_env one_memory
           0%N sample_memory " Hill walk " "2024-05-17" 1715904000000
           "Windy" "family"); reflexivity.
Defined.

(** X12: an update with a new image whose document then fails the
    validation of [save] is answered 500 with the collection as it was,
    but only after the old blob has been destroyed: the document still
    refers to a blob that is no longer at the host, and the new blob is
    there with no document referring to it, none having done so before. *)
Theorem put_memory_image_invalid_dangles mg e w o d p b format url public_id :
  memories w !! o = Some d → imagePublicId d = Some p →
  format ∈ allowed_formats → upload_reply e = Some (url, public_id) →
  destroy_reachable e = true →
  Memory.validate (with_image (File url public_id) (assign_fields mg b d)) = false →
  ¬ referenced w public_id →
  let res := serve mg e (PUT_memory (IdOk o) b (Some format)) w in
  res.1 = Response 500 (JsonError "Server error")
  ∧ memories res.2 = memories w
  ∧ referenced res.2 p ∧ (p ∉ blobs res.2)
  ∧ orphaned res.2 public_id
  ∧ media_log res.2 = media_log w ++ [Upload format; Destroy (Some p)].
Proof.
  intros Hd Hp Hf He Hr Hv Hnr res. subst res. unfold serve, app.
  assert (Hne : p ≠ public_id).
  { intros <-. apply Hnr. by exists o, d. }
  step (upload_single_accepted e format url public_id w Hf He).
  rewrite (put_memory_image mg e
             (set_blobs (λ b, {[public_id]} ∪ b) (log_call (Upload format) w))
             o d p b (File url public_id) Hd Hp).
  rewrite Hr, Hv. cbn. split; [done|]. split; [done|]. split; [by exists o, d|].
  split; [|split].
  - rewrite elem_of_difference, elem_of_singleton. tauto.
  - split; [|exact Hnr]. cbn.
    rewrite elem_of_difference, elem_of_union, !elem_of_singleton. split; auto.
  - by rewrite <- (assoc_L (++)).
Qed.

Lemma put_memory_image_invalid_dangles_witness :
  let res := serve sample_mongoose second_upload
               (PUT_memory (IdOk 0%N) nbsp_title (Some "jpg")) one_memory in
  res.1 = Response 500 (JsonError "Server error")
  ∧ memories res.2 = memories one_memory
  ∧ referenced res.2 "memories/a1" ∧ ("memories/a1" ∉ blobs res.2)
  ∧ orphaned res.2 "memories/b2"
  ∧ media_log res.2
    = media_log one_memory ++ [Upload "jpg"; Destroy (Some "memories/a1")].
Proof.
  apply (put_memory_image_invalid_dangles sample_mongoose second_upload
           one_memory 0%N sample_memory "memories/a1" nbsp_title "jpg"
           "https://res.example/memories/b2.jpg" "memories/b2").
  - reflexivity.
  - reflexivity.
  - apply (bool_decide_unpack _). vm_compute. exact I.
  - reflexivity.
  - reflexivity.
  - reflexivity.
  - intros (o & d & Hd & Hp). rewrite one_memory_holds in Hd.
    apply lookup_singleton_Some in Hd as [_ <-]. discriminate Hp.
Defined.

(** ** Deleting, and deleting again *)

(** X13: once a memory has been deleted, its id resolves to nothing: a
    second delete, and an update with no image, of the same id are
    answered 404 and leave the world as it is, with no call to the host;
    an update that carries an image is answered 404 as well once the host
    has accepted the upload, and that upload is all it does to the
    world. *)
Theorem delete_memory_then_not_found mg e e' w o d p :
  memories w !! o = Some d → imagePublicId d = Some p →
  destroy_reachable e = true →
  let w1 := (serve mg e (DELETE_memory (IdOk o)) w).2 in
  serve mg e' (DELETE_memory (IdOk o)) w1
  = (Response 404 (JsonError "Memory not found"), w1)
  ∧ (∀ b, serve mg e' (PUT_memory (IdOk o) b None) w1
          = (Response 404 (JsonError "Memory not found"), w1))
  ∧ (∀ b format url public_id,
       format ∈ allowed_formats → upload_reply e' = Some (url, public_id) →
       serve mg e' (PUT_memory (IdOk o) b (Some format)) w1
       = (Response 404 (JsonError "Memory not found"),
          set_blobs (λ b, {[public_id]} ∪ b) (log_call (Upload format) w1))).
Proof.
  intros Hd Hp He w1.
  assert (Hgone : memories w1 !! o = None).
  { unfold w1. rewrite (delete_memory_returned mg e w o d p Hd Hp He).
    apply lookup_delete_eq. }
  split; [|split].
  - unfold serve, app. by rewrite delete_memory_not_found.
  - intros b. unfold serve, app. step (upload_single_none e' w1).
    by rewrite put_memory_not_found.
  - intros b format url public_id Hf Hup. unfold serve, app.
    step (upload_single_accepted e' format url public_id w1 Hf Hup).
    by rewrite put_memory_not_found.
Qed.

Lemma delete_memory_then_not_found_witness :
  let w1 := (serve sample_mongoose sample_env (DELETE_memory (IdOk 0%N))
               one_memory).2 in
  serve sample_mongoose second_upload (DELETE_memory (IdOk 0%N)) w1
  = (Response 404 (JsonError "Memory not found"), w1)
  ∧ (∀ b, serve sample_mongoose second_upload (PUT_memory (IdOk 0%N) b None) w1
          = (Response 404 (JsonError "Memory not found"), w1))
  ∧ (∀ b format url public_id,
       format ∈ allowed_formats →
       upload_reply second_upload = Some (url, public_id) →
       serve sample_mongoose second_upload
         (PUT_memory (IdOk 0%N) b (Some format)) w1
       = (Response 404 (JsonError "Memory not found"),
          set_blobs (λ b, {[public_id]} ∪ b) (log_call (Upload format) w1))).
Proof.
  apply (delete_memory_then_not_found sample_mongoose sample_env second_upload
           one_memory 0%N sample_memory "memories/a1"); reflexivity.
Defined.

(** X14: a memory created and then deleted, with the host answering the
    destroy call, leaves the Memory collection, the Group collection and,
    when the public id was new to the host, the blobs as they were before
    the create; the host has seen the upload and then the destroy of that
    same public id, and the id of the deleted memory is not the one a
    later create gets. *)
Theorem create_then_delete_restores mg e e' w b format url public_id :
  format ∈ allowed_formats → upload_reply e = Some (url, public_id) →
  body_valid mg b = true → truthy url = true → truthy public_id = true →
  destroy_reachable e' = true → public_id ∉ blobs w →
  let created := serve mg e (POST_memories b (Some format)) w in
  let o := new_id w in
  let deleted := serve mg e' (DELETE_memory (IdOk o)) created.2 in
  deleted.1 = Response 200 (JsonMessage "Memory deleted successfully")
  ∧ memories deleted.2 = memories w
  ∧ groups deleted.2 = groups w
  ∧ blobs deleted.2 = blobs w
  ∧ media_log deleted.2
    = media_log w ++ [Upload format; Destroy (Some public_id)]
  ∧ new_id deleted.2 ≠ o.
Proof.
  intros Hf He Hb Hu Hp Hr Hnew created o deleted. subst created deleted.
  rewrite (post_memories_accepted mg e w b format url public_id Hf He).
  cbn zeta. rewrite validate_new_memory. cbn [path filename].
  rewrite Hb, Hu, Hp. cbn [andb snd].
  rewrite (delete_memory_returned mg e' _ o
             (new_memory mg e b (File url public_id)) public_id);
    [|apply lookup_insert_eq|done|done].
  match goal with
  | |- context [(_, ?w')] =>
      pose proof (proj2 (proj2 (new_id_fresh w'))) as Hlater
  end.
  cbn in Hlater |- *. split; [done|]. split; [|split; [done|split; [|split]]].
  - apply delete_insert_id, new_id_fresh.
  - apply leibniz_equiv. intros x.
    rewrite elem_of_difference, elem_of_union, !elem_of_singleton.
    split; [tauto|]. intros Hx. split; [by right|]. by intros ->.
  - by rewrite <- (assoc_L (++)).
  - intros Heq. apply Hlater. rewrite Heq.
    by apply elem_of_union_l, elem_of_singleton.
Qed.

Lemma create_then_delete_restores_witness :
  let created := serve sample_mongoose sample_env
                   (POST_memories sample_fields (Some "png")) empty_world in
  let deleted := serve sample_mongoose second_upload (DELETE_memory (IdOk 0%N))
                   created.2 in
  deleted.1 = Response 200 (JsonMessage "Memory deleted successfully")
  ∧ memories deleted.2 = memories empty_world
  ∧ groups deleted.2 = groups empty_world
  ∧ blobs deleted.2 = blobs empty_world
  ∧ media_log deleted.2
    = media_log empty_world ++ [Upload "png"; Destroy (Some "memories/a1")]
  ∧ new_id deleted.2 ≠ 0%N.
Proof.
  apply (create_then_delete_restores sample_mongoose sample_env second_upload
           empty_world sample_fields "png"
           "https://res.example/memories/a1.png" "memories/a1").
  - apply (bool_decide_unpack _). vm_compute. exact I.
  - reflexivity.
  - reflexivity.
  - reflexivity.
  - reflexivity.
  - reflexivity.
  - apply not_elem_of_empty.
Defined.

(** ** What the Memory collection can hold *)

Lemma required_Some v : required v = true → ∃ s, v = Some s ∧ truthy s = true.
Proof. destruct v as [s|]; [|done]. intros Hs. by exists s. Qed.

(** X15: whatever requests have been served since the store was empty,
    every document of the Memory collection has a title that is not empty
    and is trimmed, a date that is a point in time, a description, an
    image url and a public id, none of them empty. *)
Theorem reachable_documents_complete mg reqs o d :
  memories (serve_all mg reqs empty_world) !! o = Some d →
  ∃ t z ds url public_id,
    title d = Some t ∧ truthy t = true ∧ trim t = t
    ∧ date d = DateOk z
    ∧ description d = Some ds ∧ truthy ds = true
    ∧ imageUrl d = Some url ∧ truthy url = true
    ∧ imagePublicId d = Some public_id ∧ truthy public_id = true.
Proof.
  intros Hd.
  destruct (reachable_stored mg reqs o d Hd) as [Hv Ht].
  unfold Memory.validate in Hv.
  repeat (apply andb_prop in Hv as [Hv ?]).
  destruct (required_Some _ Hv) as (t & Htitle & ?).
  destruct (date d) as [| |z] eqn:Hdate; try done.
  destruct (required_Some (description d)) as (ds & ? & ?); [done|].
  destruct (required_Some (imageUrl d)) as (url & ? & ?); [done|].
  destruct (required_Some (imagePublicId d)) as (public_id & ? & ?); [done|].
  exists t, z, ds, url, public_id. repeat split; try done.
  rewrite Htitle in Ht. cbn in Ht. congruence.
Qed.

Lemma reachable_documents_complete_witness :
  ∃ t z ds url public_id,
    title sample_memory = Some t ∧ truthy t = true ∧ trim t = t
    ∧ date sample_memory = DateOk z
    ∧ description sample_memory = Some ds ∧ truthy ds = true
    ∧ imageUrl sample_memory = Some url ∧ truthy url = true
    ∧ imagePublicId sample_memory = Some public_id ∧ truthy public_id = true.
Proof.
  apply (reachable_documents_complete sample_mongoose
           [(sample_env, POST_memories sample_fields (Some "png"))] 0%N
           sample_memory).
  reflexivity.
Defined.

(** ** The calls a request makes to the media host *)

Lemma upload_single_log e image w :
  media_log (upload_single e image w).2
  = media_log w ++ match image with Some format => [Upload format] | None => [] end.
Proof.
  destruct image as [format|];
    [|by rewrite upload_single_none, (right_id_L [] (++))].
  destruct (upload_cases e format) as [(Hf & url & public_id & He)|Hr].
  - by rewrite (upload_single_accepted e format url public_id w Hf He).
  - by rewrite (upload_single_refused e format w Hr).
Qed.

Lemma post_memories_log mg e b req_file w :
  media_log (post_memories mg e b req_file w).2 = media_log w.
Proof.
  assert (H : preserves same_media (post_memories mg e b req_file)); [|apply H].
  unfold post_memories, Memory.new, Memory.save. preserve; kept.
Qed.

Lemma Memory_save_log doc w :
  media_log (Memory.save doc w).2 = media_log w.
Proof.
  assert (H : preserves same_media (Memory.save doc)); [|apply H].
  unfold Memory.save. preserve; kept.
Qed.

Lemma destroy_log e p w :
  media_log (cloudinary.destroy e p w).2 = media_log w ++ [Destroy p].
Proof.
  run. destruct p as [p|]; [|done].
  destruct (destroy_reachable e); [|done]. by case_bool_decide.
Qed.

Lemma delete_memory_log e id w :
  media_log (delete_memory e id w).2 = media_log w
  ∨ ∃ p, media_log (delete_memory e id w).2 = media_log w ++ [Destroy p].
Proof.
  destruct id as [o|raw]; [|by left].
  destruct (memories w !! o) as [d|] eqn:Hd;
    [|rewrite delete_memory_not_found by done; by left].
  right. exists (imagePublicId d). rewrite <- (destroy_log e (imagePublicId d) w).
  unfold delete_memory, try_catch.
  step (Memory_findById_ok o w). rewrite Hd. cbn [fmap option_fmap option_map].
  unfold mbind at 1, M_bind at 1.
  destruct (cloudinary.destroy e (imagePublicId d) w) as [[r|err] w1]; done.
Qed.

Lemma put_memory_log mg e id b req_file w :
  media_log (put_memory mg e id b req_file w).2 = media_log w
  ∨ ∃ p, req_file ≠ None
         ∧ media_log (put_memory mg e id b req_file w).2
           = media_log w ++ [Destroy p].
Proof.
  destruct id as [o|raw]; [|by left].
  destruct (memories w !! o) as [d|] eqn:Hd;
    [|rewrite put_memory_not_found by done; by left].
  destruct req_file as [f|].
  - right. exists (imagePublicId d). split; [done|].
    rewrite <- (destroy_log e (imagePublicId d) w).
    unfold put_memory, try_catch.
    step (Memory_findById_ok o w). rewrite Hd. cbn [fmap option_fmap option_map].
    change (imagePublicId (assign_fields mg b d)) with (imagePublicId d).
    unfold mbind, M_bind, mret, M_ret.
    destruct (cloudinary.destroy e (imagePublicId d) w) as [[r|err] w1]; [|done].
    match goal with
    | |- context [Memory.save ?doc w1] =>
        pose proof (Memory_save_log doc w1) as Hsave;
        destruct (Memory.save doc w1) as [[saved|err] w2]
    end; done.
  - left. rewrite (put_memory_plain mg e w o d b Hd).
    by destruct (Memory.validate _).
Qed.

(** X16: one request makes at most two calls to the media host: the
    upload of its image part, if it carries one, made first, and after it
    at most one destroy call, which only the delete of a memory and an
    update that carries an image can make. *)
Theorem media_calls_of_a_request mg e req w :
  ∃ destroys,
    media_log (serve mg e req w).2
    = media_log w
      ++ match image_part req with Some format => [Upload format] | None => [] end
      ++ destroys
    ∧ (destroys = []
       ∨ ∃ p, destroys = [Destroy p]
              ∧ ((∃ id, req = DELETE_memory id)
                 ∨ (is_update req = true ∧ image_part req ≠ None))).
Proof.
  assert (Hother : ∀ req, memory_route req = false ∨ req = GET_memories →
            image_part req = None →
            ∃ destroys,
              media_log (serve mg e req w).2
              = media_log w
                ++ match image_part req with
                   | Some format => [Upload format]
                   | None => []
                   end ++ destroys
              ∧ (destroys = []
                 ∨ ∃ p, destroys = [Destroy p]
                        ∧ ((∃ id, req = DELETE_memory id)
                           ∨ (is_update req = true ∧ image_part req ≠ None)))).
  { intros req' Hr ->. exists []. split; [|by left].
    destruct (other_routes_preserve mg e req' Hr) as [_ Hmedia].
    rewrite serve_world. destruct (Hmedia w) as [_ ->].
    by rewrite !app_nil_r. }
  destruct req as [|b|id b|id| |b image|id|id b image];
    try (apply Hother; [by auto|done]); clear Hother; rewrite serve_world.
  - exists []. split; [|by left]. unfold app.
    pose proof (upload_single_log e image w) as Hup.
    destruct (upload_single e image w) as [[req_file|err] w1] eqn:Hu;
      step Hu; cbn in Hup |- *; rewrite app_nil_r; [|done].
    by rewrite post_memories_log.
  - unfold app. cbn [image_part app_nil_l].
    destruct (delete_memory_log e id w) as [->|(p & ->)].
    + exists []. split; [by rewrite app_nil_r|by left].
    + exists [Destroy p]. split; [done|]. right. exists p. split; [done|].
      left. by exists id.
  - unfold app. pose proof (upload_single_log e image w) as Hup.
    destruct (upload_single e image w) as [[req_file|err] w1] eqn:Hu;
      step Hu; cbn in Hup |- *;
      [|exists []; split; [by rewrite app_nil_r|by left]].
    destruct (put_memory_log mg e id b req_file w1) as [->|(p & Hf & ->)].
    + exists []. split; [by rewrite app_nil_r|by left].
    + exists [Destroy p]. split; [by rewrite Hup, (assoc_L (++))|].
      right. exists p. split; [done|]. right. split; [done|].
      intros ->. rewrite upload_single_none in Hu. by simplify_eq.
Qed.

(** ** The older server file and the [special] tag *)

Lemma server_js_agrees_witness :
  server_js.app sample_mongoose sample_env
    (POST_memories (MemoryFields (Some "Beach day") (Some "2024-05-17")
                      (Some "Sun and sand") (Some "family")) (Some "png"))
    empty_world
  = app sample_mongoose sample_env (POST_memories sample_fields (Some "png"))
      empty_world.
Proof.
  apply (server_js_agrees sample_mongoose sample_env
           (POST_memories (MemoryFields (Some "Beach day") (Some "2024-05-17")
                             (Some "Sun and sand") (Some "family")) (Some "png"))
           empty_world).
  reflexivity.
Defined.

(** X18: [server.js] never writes a [special] tag: after any of its
    requests a document of the Memory collection has no tag, or is a
    document that was there before with the tag it had. *)
Theorem server_js_never_writes_special mg e req w o d' :
  memories (server_js.app mg e req w).2 !! o = Some d' →
  special d' = None
  ∨ ∃ d, memories w !! o = Some d ∧ special d' = special d.
Proof.
  assert (Hother : memory_route req = false →
                   memories (server_js.app mg e req w).2 = memories w)
    by (by destruct req).
  destruct (memory_route req) eqn:Hr;
    [|rewrite Hother by done; intros Hd; right; by exists d'].
  clear Hother.
  assert (Hsame : server_js.app mg e req w = app mg e (drop_special req) w)
    by (by destruct req).
  rewrite Hsame, <- serve_world.
  destruct (serve_memories_precise mg e (drop_special req) w)
    as [->|[(o0 & _ & ->)|[(b & image & f & Hreq & ->)
                          |(o0 & b & image & d0 & d1 & Hreq & Hd0 & -> & Hd1)]]].
  - intros Hd. right. by exists d'.
  - intros [_ Hd]%lookup_delete_Some. right. by exists d'.
  - intros [[_ <-]|[_ Hd]]%lookup_insert_Some; [|right; by exists d'].
    left. clear Hsame. by destruct req; cbn in Hreq; simplify_eq.
  - intros [[<- <-]|[_ Hd]]%lookup_insert_Some; [|right; by exists d'].
    right. exists d0. split; [done|].
    clear Hsame. destruct req; cbn in Hreq; simplify_eq.
    by destruct Hd1 as [->|[f ->]].
Qed.

Lemma server_js_never_writes_special_witness :
  special sample_memory = None
  ∨ ∃ d, memories empty_world !! 0%N = Some d
         ∧ special sample_memory = special d.
Proof.
  apply (server_js_never_writes_special sample_mongoose sample_env
           (POST_memories (MemoryFields (Some "Beach day") (Some "2024-05-17")
                             (Some "Sun and sand") (Some "family")) (Some "png"))
           empty_world 0%N sample_memory).
  vm_compute. reflexivity.
Defined.

(** ** Groups: creating, updating, deleting, listing *)

(** X19: a create of a group whose name is missing, empty or blank is
    answered 500 and stores nothing. *)
Theorem post_groups_blank_name_rejected mg e w b :
  required (trim <$> f_name b) = false →
  serve mg e (POST_groups b) w = (Response 500 (JsonError "Server error"), w).
Proof.
  intros Hn. unfold serve, app. rewrite post_groups_run.
  unfold Group.validate, new_group. cbn [name]. by rewrite Hn.
Qed.

Lemma post_groups_blank_name_rejected_witness :
  serve sample_mongoose sample_env
    (POST_groups (GroupFields (Some "  ") (Some "2024") (Some [0%N]))) one_group
  = (Response 500 (JsonError "Server error"), one_group).
Proof.
  apply (post_groups_blank_name_rejected sample_mongoose sample_env one_group
           (GroupFields (Some "  ") (Some "2024") (Some [0%N]))).
  reflexivity.
Defined.

(** X20: the update of a group runs no validation: a name that is blank,
    which a create refuses, is accepted with 200 and leaves the group with
    the empty name. *)
Theorem put_group_skips_validation mg e w o g b t :
  groups w !! o = Some g → f_name b = Some t → trim t = "" →
  ∃ g',
    serve mg e (PUT_group (IdOk o) b) w
    = (Response 200 (JsonGroup (o, g')), set_groups (insert o g') w)
    ∧ name g' = Some ""
    ∧ Group.validate g' = false
    ∧ serve mg e (POST_groups b) w = (Response 500 (JsonError "Server error"), w).
Proof.
  intros Hg Hn Ht. exists (Group.apply_update mg b g).
  split; [|split; [|split]].
  - unfold serve, app. by rewrite (put_group_found mg w o g b Hg).
  - unfold Group.apply_update, Group.write_path. cbn. by rewrite Hn; cbn; rewrite Ht.
  - unfold Group.validate, Group.apply_update, Group.write_path. cbn.
    by rewrite Hn; cbn; rewrite Ht.
  - unfold serve, app. rewrite post_groups_run.
    unfold Group.validate, new_group. cbn [name]. by rewrite Hn; cbn; rewrite Ht.
Qed.

Lemma put_group_skips_validation_witness :
  ∃ g',
    serve sample_mongoose sample_env
      (PUT_group (IdOk 0%N) (GroupFields (Some "  ") None None)) one_group
    = (Response 200 (JsonGroup (0%N, g')), set_groups (insert 0%N g') one_group)
    ∧ name g' = Some ""
    ∧ Group.validate g' = false
    ∧ serve sample_mongoose sample_env
        (POST_groups (GroupFields (Some "  ") None None)) one_group
      = (Response 500 (JsonError "Server error"), one_group).
Proof.
  apply (put_group_skips_validation sample_mongoose sample_env one_group 0%N
           sample_group (GroupFields (Some "  ") None None) "  ");
    reflexivity.
Defined.

(** X21: the delete of a group that is there is answered 200 and removes
    that group and no other; the same delete served again is answered
    404. *)
Theorem delete_group_removes mg e e' w o g :
  groups w !! o = Some g →
  let res := serve mg e (DELETE_group (IdOk o)) w in
  res = (Response 200 (JsonMessage "Group deleted successfully"),
         set_groups (delete o) w)
  ∧ groups res.2 !! o = None
  ∧ (∀ o', o' ≠ o → groups res.2 !! o' = groups w !! o')
  ∧ serve mg e' (DELETE_group (IdOk o)) res.2
    = (Response 404 (JsonError "Group not found"), res.2).
Proof.
  intros Hg res. subst res. unfold serve, app.
  rewrite (delete_group_found w o g Hg). cbn.
  split; [done|]. split; [apply lookup_delete_eq|]. split.
  - intros o' Hne. by apply lookup_delete_ne.
  - rewrite delete_group_not_found; [done|apply lookup_delete_eq].
Qed.

Lemma delete_group_removes_witness :
  let res := serve sample_mongoose sample_env (DELETE_group (IdOk 0%N)) one_group in
  res = (Response 200 (JsonMessage "Group deleted successfully"),
         set_groups (delete 0%N) one_group)
  ∧ groups res.2 !! 0%N = None
  ∧ (∀ o', o' ≠ 0%N → groups res.2 !! o' = groups one_group !! o')
  ∧ serve sample_mongoose second_upload (DELETE_group (IdOk 0%N)) res.2
    = (Response 404 (JsonError "Group not found"), res.2).
Proof.
  apply (delete_group_removes sample_mongoose sample_env second_upload
           one_group 0%N sample_group).
  reflexivity.
Defined.

(** X22: the listing of the groups is answered 200 with every group of
    the collection, each once, and leaves the world as it is. *)
Theorem get_groups_lists_all mg e w :
  ∃ l,
    serve mg e GET_groups w = (Response 200 (JsonGroups l), w)
    ∧ NoDup l
    ∧ List.length l = size (groups w)
    ∧ ∀ o g, (o, g) ∈ l ↔ groups w !! o = Some g.
Proof.
  exists (map_to_list (groups w)). split; [done|].
  split; [apply NoDup_map_to_list|]. split; [apply length_map_to_list|].
  intros o g. apply elem_of_map_to_list.
Qed.

(** ** Ids that are no ObjectId *)

(** X23: an [:id] that is no ObjectId is answered 500, not 404, by the two
    updates and the two deletes, with both collections as they were; an
    update of a memory that carries an image has by then stored the image,
    which stays at the host with no document referring to it. *)
Theorem malformed_id_answers_500 mg e raw w :
  serve mg e (DELETE_memory (IdMalformed raw)) w
  = (Response 500 (JsonError "Server error"), w)
  ∧ serve mg e (DELETE_group (IdMalformed raw)) w
    = (Response 500 (JsonError "Server error"), w)
  ∧ (∀ b, serve mg e (PUT_group (IdMalformed raw) b) w
          = (Response 500 (JsonError "Server error"), w))
  ∧ (∀ b, serve mg e (PUT_memory (IdMalformed raw) b None) w
          = (Response 500 (JsonError "Server error"), w))
  ∧ (∀ b format url public_id,
       format ∈ allowed_formats → upload_reply e = Some (url, public_id) →
       ¬ referenced w public_id →
       let res := serve mg e (PUT_memory (IdMalformed raw) b (Some format)) w in
       res.1 = Response 500 (JsonError "Server error")
       ∧ memories res.2 = memories w
       ∧ media_log res.2 = media_log w ++ [Upload format]
       ∧ orphaned res.2 public_id).
Proof.
  do 4 (split; [done|]).
  intros b format url public_id Hf He Hnr res. subst res. unfold serve, app.
  step (upload_single_accepted e format url public_id w Hf He). cbn.
  repeat split; try done. by apply elem_of_union_l, elem_of_singleton.
Qed.

Lemma malformed_id_answers_500_witness :
  let res := serve sample_mongoose sample_env
               (PUT_memory (IdMalformed "42") sample_fields (Some "png"))
               empty_world in
  res.1 = Response 500 (JsonError "Server error")
  ∧ memories res.2 = memories empty_world
  ∧ media_log res.2 = media_log empty_world ++ [Upload "png"]
  ∧ orphaned res.2 "memories/a1".
Proof.
  destruct (malformed_id_answers_500 sample_mongoose sample_env "42" empty_world)
    as (_ & _ & _ & _ & Himage).
  apply (Himage sample_fields "png" "https://res.example/memories/a1.png"
           "memories/a1").
  - apply (bool_decide_unpack _). vm_compute. exact I.
  - reflexivity.
  - intros (o & d & Hd & _). discriminate Hd.
Defined.

(** ** No handler lets an error escape *)

Lemma returns_only_ret {A} (Q : A → Prop) a : Q a → returns_only Q (mret a).
Proof. intros Ha w a' w' [= <- _]. exact Ha. Qed.

Lemma returns_only_throw {A} (Q : A → Prop) err : returns_only Q (throw err).
Proof. by intros w a w'. Qed.

Lemma returns_only_bind {A B} (Q : B → Prop) (m : M A) (f : A → M B) :
  (∀ a, returns_only Q (f a)) → returns_only Q (m ≫= f).
Proof.
  intros Hf w b w'. unfold mbind, M_bind.
  destruct (m w) as [[a|err] w1]; [apply Hf|done].
Qed.

Lemma try_catch_answers Q (body : M response) (handler : error → M response) :
  returns_only Q body → (∀ err, answers Q (handler err)) →
  answers Q (try_catch body handler).
Proof.
  intros Hb Hh w. unfold try_catch.
  destruct (body w) as [[r|err] w1] eqn:Hrun.
  - exists r, w1. split; [done|]. by apply (Hb w r w1).
  - apply Hh.
Qed.

Lemma server_error_answers err : answers json_answer (server_error err).
Proof. intros w. by eexists _, w. Qed.

(** Walks down the body of a handler to each response it returns. *)
Ltac returned :=
  repeat match goal with
    | |- ∀ _, _ => intro
    | |- answers _ (try_catch _ _) =>
        apply try_catch_answers; [|apply server_error_answers]
    | |- returns_only _ (_ ≫= _) => apply returns_only_bind
    | |- returns_only _ (mret _) => by apply returns_only_ret
    | |- returns_only _ (throw _) => apply returns_only_throw
    | |- returns_only _ (match ?x with _ => _ end) => destruct x
    end.

(** X24: no handler lets an error escape: from any world each of the
    eight handlers returns a response of its own, with a JSON body, and
    never throws; a cast, validation or media error raised inside one is
    answered by its [catch]. *)
Theorem handlers_never_throw mg e :
  answers json_answer get_groups
  ∧ (∀ b, answers json_answer (post_groups e b))
  ∧ (∀ id b, answers json_answer (put_group mg id b))
  ∧ (∀ id, answers json_answer (delete_group id))
  ∧ answers json_answer get_memories
  ∧ (∀ b req_file, answers json_answer (post_memories mg e b req_file))
  ∧ (∀ id, answers json_answer (delete_memory e id))
  ∧ (∀ id b req_file, answers json_answer (put_memory mg e id b req_file)).
Proof.
  repeat split; unfold get_groups, post_groups, put_group, delete_group,
    get_memories, post_memories, delete_memory, put_memory; returned.
Qed.

(** ** Swapping the image of a memory *)

(** X25: after an update with a new image that completes, the host holds
    the blobs it held, plus the new one, minus the old one, and the
    document refers to the new one.  When the host hands out a public id
    other than the old one, the new blob is there and the old one is gone;
    when it hands out the old public id again, the destroy call, coming
    after the upload, removes the blob just stored. *)
Theorem put_memory_image_swaps_blob mg e w o d p b format url public_id :
  memories w !! o = Some d → imagePublicId d = Some p →
  format ∈ allowed_formats → upload_reply e = Some (url, public_id) →
  destroy_reachable e = true →
  Memory.validate (with_image (File url public_id) (assign_fields mg b d)) = true →
  let res := serve mg e (PUT_memory (IdOk o) b (Some format)) w in
  status res.1 = 200
  ∧ blobs res.2 = ({[public_id]} ∪ blobs w) ∖ {[p]}
  ∧ referenced res.2 public_id
  ∧ (p ≠ public_id → public_id ∈ blobs res.2 ∧ p ∉ blobs res.2)
  ∧ (p = public_id → public_id ∉ blobs res.2).
Proof.
  intros Hd Hp Hf He Hr Hv res. subst res. unfold serve, app.
  step (upload_single_accepted e format url public_id w Hf He).
  rewrite (put_memory_image mg e
             (set_blobs (λ b, {[public_id]} ∪ b) (log_call (Upload format) w))
             o d p b (File url public_id) Hd Hp).
  rewrite Hr, Hv. cbn. split; [done|]. split; [done|]. split; [|split].
  - eexists o, _. split; [apply lookup_insert_eq|done].
  - intros Hne. rewrite !elem_of_difference, elem_of_union, !elem_of_singleton.
    split; [split; auto|tauto].
  - intros ->. rewrite elem_of_difference, elem_of_singleton. tauto.
Qed.

Lemma put_memory_image_swaps_blob_witness :
  let res := serve sample_mongoose second_upload
               (PUT_memory (IdOk 0%N) no_fields (Some "jpg")) one_memory in
  status res.1 = 200
  ∧ blobs res.2 = ({["memories/b2"]} ∪ blobs one_memory) ∖ {["memories/a1"]}
  ∧ referenced res.2 "memories/b2"
  ∧ ("memories/a1" ≠ "memories/b2" →
       "memories/b2" ∈ blobs res.2 ∧ "memories/a1" ∉ blobs res.2)
  ∧ ("memories/a1" = "memories/b2" → "memories/b2" ∉ blobs res.2).
Proof.
  apply (put_memory_image_swaps_blob sample_mongoose second_upload one_memory
           0%N sample_memory "memories/a1" no_fields "jpg"
           "https://res.example/memories/b2.jpg" "memories/b2").
  - reflexivity.
  - reflexivity.
  - apply (bool_decide_unpack _). vm_compute. exact I.
  - reflexivity.
  - reflexivity.
  - reflexivity.
Defined.

(** ** Creating a group *)

(** X26: a create of a group whose name is not blank is answered 201 with
    the new group, stored under an id that was not in the collection and
    had not been issued before, so no group is overwritten and the
    collection grows by one; the group carries the trimmed name, the
    description as given and the clock's [createdAt]. *)
Theorem post_groups_creates mg e w b :
  required (trim <$> f_name b) = true →
  let o := new_id w in
  let g := new_group e b in
  let res := serve mg e (POST_groups b) w in
  res.1 = Response 201 (JsonGroup (o, g))
  ∧ groups w !! o = None ∧ (o ∉ issued w)
  ∧ issued res.2 = {[o]} ∪ issued w
  ∧ groups res.2 = <[o := g]> (groups w)
  ∧ (∀ o' g', groups w !! o' = Some g' → groups res.2 !! o' = Some g')
  ∧ size (groups res.2) = S (size (groups w))
  ∧ name g = trim <$> f_name b ∧ g_description g = f_description b
  ∧ g_createdAt g = now e.
Proof.
  intros Hn o g res. subst res. unfold serve, app. rewrite post_groups_run.
  unfold Group.validate. fold g. cbn [name new_group] in *.
  assert (Hv : required (name g) = true) by done. rewrite Hv.
  destruct (new_id_fresh w) as (_ & Hfresh & Hissued). cbn.
  do 5 (split; [done|]). split; [|split; [|done]].
  - intros o' g' Hg'. rewrite lookup_insert_ne; [done|]. congruence.
  - by apply map_size_insert_None.
Qed.

Lemma post_groups_creates_witness :
  let res := serve sample_mongoose sample_env
               (POST_groups (GroupFields (Some "Holidays") (Some "2024") (Some [0%N])))
               empty_world in
  res.1 = Response 201 (JsonGroup (0%N, sample_group))
  ∧ groups res.2 = <[0%N := sample_group]> (groups empty_world).
Proof.
  destruct (post_groups_creates sample_mongoose sample_env empty_world
              (GroupFields (Some "Holidays") (Some "2024") (Some [0%N])))
    as (Hres & _ & _ & _ & Hgroups & _).
  - reflexivity.
  - split; [exact Hres|exact Hgroups].
Defined.
